(** * Digital twin car engine: the sensor channel and the engine state model

    A shallow embedding of [SimulatedSensor] and [VirtualCarSimulator] of
    [script.py], and the properties of its recomputation pass.

    Modelling conventions.
    - Python numbers are [num]: an integer ([PyInt], as [Z]) or a float
      ([PyFloat]).  Floats are idealised as exact rationals ([Q]); NaN, the
      infinities and binary64 rounding are outside the model.  The distinction
      between the two kinds is kept where the code depends on it: a list can
      be indexed by an integer only.
    - A method is a computation over its [self], in a state-and-exception
      monad [M Self A].  A raised exception keeps the mutations made before
      it, as in Python.
    - The two sources of non-determinism, [random.random()] and
      [datetime.now()], are oracle tapes of a [World] that every computation
      threads.
    - [self.sensors] is a Python dict, kept as an association list in
      insertion order.
    - The test driver [DigitalTwinTester] runs over the tester object and
      the console.  A printed f-string is kept as its template and the values
      of its fields; rendering numbers as text, the JSON export and the
      status banner are outside the model. *)

From Stdlib Require Import ZArith QArith Qround Qminmax Qabs List String Lia Lqa.
Import ListNotations.

Local Open Scope string_scope.
Local Open Scope Q_scope.

(** ** Python values *)

Inductive num : Type :=
| PyInt (z : Z)
| PyFloat (q : Q).

Definition numQ (n : num) : Q :=
  match n with
  | PyInt z => inject_Z z
  | PyFloat q => q
  end.

Coercion numQ : num >-> Q.

Inductive exn : Type :=
| TypeError
| IndexError
| KeyError (k : string).

Inductive outcome (A : Type) : Type :=
| Ok (a : A)
| Raise (e : exn).

Arguments Ok {A} a.
Arguments Raise {A} e.

(** ** The outside world: random source and wall clock *)

Record World : Type := mkWorld {
  random_tape : nat -> Q;   (* successive results of random.random() *)
  random_pos : nat;
  clock_tape : nat -> Z;    (* successive results of datetime.now() *)
  clock_pos : nat
}.

(** ** The monad of methods *)

Definition M (Self A : Type) : Type := World -> Self -> outcome A * World * Self.

Definition ret {Self A} (a : A) : M Self A := fun w s => (Ok a, w, s).

Definition bind {Self A B} (m : M Self A) (k : A -> M Self B) : M Self B :=
  fun w s =>
    match m w s with
    | (Ok a, w', s') => k a w' s'
    | (Raise e, w', s') => (Raise e, w', s')
    end.

Definition raise {Self A} (e : exn) : M Self A := fun w s => (Raise e, w, s).

Definition gets {Self A} (f : Self -> A) : M Self A := fun w s => (Ok (f s), w, s).

Definition modify {Self} (f : Self -> Self) : M Self unit := fun w s => (Ok tt, w, f s).

Declare Scope py_scope.
Delimit Scope py_scope with py.
Notation "x <- m ;; k" := (bind m (fun x => k))
  (at level 61, m at next level, right associativity) : py_scope.
Notation "m ;; k" := (bind m (fun _ => k))
  (at level 61, right associativity) : py_scope.
Local Open Scope py_scope.

Definition result_of {Self A} (r : outcome A * World * Self) : outcome A := fst (fst r).
Definition world_of {Self A} (r : outcome A * World * Self) : World := snd (fst r).
Definition self_of {Self A} (r : outcome A * World * Self) : Self := snd r.

(** [random.random()] and [datetime.now()]. *)
Definition random_random {Self} : M Self Q :=
  fun w s =>
    (Ok (random_tape w (random_pos w)),
     mkWorld (random_tape w) (S (random_pos w)) (clock_tape w) (clock_pos w), s).

Definition datetime_now {Self} : M Self Z :=
  fun w s =>
    (Ok (clock_tape w (clock_pos w)),
     mkWorld (random_tape w) (random_pos w) (clock_tape w) (S (clock_pos w)), s).

(** [random.uniform(a, b)] is [a + (b - a) * random()]. *)
Definition uniform_of (a b u : Q) : Q := a + (b - a) * u.

Definition random_uniform {Self} (a b : Q) : M Self Q :=
  u <- random_random ;; ret (uniform_of a b u).

(** ** numpy and builtins *)

(** [np.clip(x, lo, hi)] is [minimum(maximum(x, lo), hi)]. *)
Definition Qclip (x lo hi : Q) : Q := Qmin (Qmax x lo) hi.

(** [np.clip] keeps the kind of its argument: an integer stays an integer,
    a float stays a float. *)
Definition np_clip (x : num) (lo hi : Z) : num :=
  match x with
  | PyInt z => PyInt (Z.min (Z.max z lo) hi)
  | PyFloat q => PyFloat (Qclip q (inject_Z lo) (inject_Z hi))
  end.

(** Round half to even, to an integer. *)
Definition round_half_even (x : Q) : Z :=
  let f := Qfloor x in
  match Qcompare (x - inject_Z f) (1 # 2) with
  | Lt => f
  | Gt => (f + 1)%Z
  | Eq => if Z.even f then f else (f + 1)%Z
  end.

(** [round(x, 2)]. *)
Definition round2 (x : Q) : Q := inject_Z (round_half_even (x * 100)) / 100.

(** Lifting of a pure, possibly failing, evaluation. *)
Definition lift {Self A} (o : outcome A) : M Self A := fun w s => (o, w, s).

(** [l[i]] on a Python list: a float index is a [TypeError], a negative
    index counts from the end, an index out of range is an [IndexError]. *)
Definition list_getitem {A} (l : list A) (i : num) : outcome A :=
  match i with
  | PyFloat _ => Raise TypeError
  | PyInt z =>
      let n := Z.of_nat (List.length l) in
      let j := if (z <? 0)%Z then (z + n)%Z else z in
      if ((0 <=? j) && (j <? n))%Z%bool then
        match nth_error l (Z.to_nat j) with
        | Some a => Ok a
        | None => Raise IndexError
        end
      else Raise IndexError
  end.

(** ** Dictionaries with string keys *)

Definition dict (V : Type) : Type := list (string * V).

Fixpoint dict_get {V} (k : string) (d : dict V) : option V :=
  match d with
  | [] => None
  | (k', v) :: d' => if String.eqb k k' then Some v else dict_get k d'
  end.

Fixpoint dict_update {V} (k : string) (f : V -> V) (d : dict V) : dict V :=
  match d with
  | [] => []
  | (k', v) :: d' =>
      if String.eqb k k' then (k', f v) :: d' else (k', v) :: dict_update k f d'
  end.

(** ** Sensor channel *)

Record SimulatedSensor : Type := mkSensor {
  name : string;
  value : Q;
  min_value : Q;
  max_value : Q;
  noise_level : Q
}.

Definition with_value (v : Q) (s : SimulatedSensor) : SimulatedSensor :=
  mkSensor (name s) v (min_value s) (max_value s) (noise_level s).

Record Reading : Type := mkReading {
  command : string;
  reading_value : Q;
  unit_label : string;
  timestamp : Z
}.

Definition units : dict string :=
  [ ("RPM", "rpm");
    ("SPEED", "km/h");
    ("COOLANT_TEMP", "°C");
    ("ENGINE_LOAD", "%");
    ("THROTTLE_POS", "%");
    ("INTAKE_TEMP", "°C");
    ("MAF", "g/s");
    ("FUEL_RATE", "L/h");
    ("OIL_TEMP", "°C");
    ("OIL_PRESSURE", "psi") ].

Module SimulatedSensorMethods.

Definition get_unit : M SimulatedSensor string :=
  n <- gets name ;;
  ret (match dict_get n units with Some u => u | None => EmptyString end).

Definition read : M SimulatedSensor Reading :=
  nl <- gets noise_level ;;
  noise <- random_uniform (- nl) nl ;;
  v <- gets value ;;
  lo <- gets min_value ;;
  hi <- gets max_value ;;
  let value := Qclip (v + noise) lo hi in
  n <- gets name ;;
  u <- get_unit ;;
  t <- datetime_now ;;
  ret (mkReading n (round2 value) u t).

End SimulatedSensorMethods.

(** ** Engine state model *)

Record VirtualCarSimulator : Type := mkCar {
  sensors : dict SimulatedSensor;
  throttle : num;
  gear : num;
  mileage : Q
}.

Definition init : VirtualCarSimulator :=
  mkCar
    [ ("RPM", mkSensor "RPM" 800 0 7000 50);
      ("SPEED", mkSensor "SPEED" 0 0 200 2);
      ("COOLANT_TEMP", mkSensor "COOLANT_TEMP" 85 60 120 1);
      ("ENGINE_LOAD", mkSensor "ENGINE_LOAD" 20 0 100 2);
      ("THROTTLE_POS", mkSensor "THROTTLE_POS" 15 0 100 1);
      ("INTAKE_TEMP", mkSensor "INTAKE_TEMP" 25 20 80 0.5);
      ("MAF", mkSensor "MAF" 5 0 200 0.5);
      ("FUEL_RATE", mkSensor "FUEL_RATE" 0.8 0 20 0.1);
      ("OIL_TEMP", mkSensor "OIL_TEMP" 80 60 120 1);
      ("OIL_PRESSURE", mkSensor "OIL_PRESSURE" 40 15 80 2) ]
    (PyInt 0) (PyInt 3) 45230.0.

(** [self.sensors[k].value] *)
Definition sensor_value (k : string) : M VirtualCarSimulator Q :=
  d <- gets sensors ;;
  match dict_get k d with
  | Some s => ret (value s)
  | None => raise (KeyError k)
  end.

(** [self.sensors[k].value = v] *)
Definition set_sensor_value (k : string) (v : Q) : M VirtualCarSimulator unit :=
  d <- gets sensors ;;
  match dict_get k d with
  | Some _ =>
      modify (fun c => mkCar (dict_update k (with_value v) (sensors c))
                             (throttle c) (gear c) (mileage c))
  | None => raise (KeyError k)
  end.

Definition set_self_throttle (t : num) : M VirtualCarSimulator unit :=
  modify (fun c => mkCar (sensors c) t (gear c) (mileage c)).

Definition set_self_gear (g : num) : M VirtualCarSimulator unit :=
  modify (fun c => mkCar (sensors c) (throttle c) g (mileage c)).

Definition set_self_mileage (m : Q) : M VirtualCarSimulator unit :=
  modify (fun c => mkCar (sensors c) (throttle c) (gear c) m).

Definition gear_ratios : list Q := [0; 3.5; 2.5; 1.8; 1.3; 1.0; 0.8].

Definition _update_sensors : M VirtualCarSimulator unit :=
  thr <- gets throttle ;;
  let target_rpm := 800 + thr * 50 in
  rpm <- sensor_value "RPM" ;;
  set_sensor_value "RPM" (rpm + (target_rpm - rpm) * 0.1) ;;
  rpm <- sensor_value "RPM" ;;
  g <- gets gear ;;
  ratio <- lift (list_getitem gear_ratios g) ;;
  let speed := (rpm * ratio) / 60 in
  set_sensor_value "SPEED" speed ;;
  set_sensor_value "ENGINE_LOAD" (thr * 0.7) ;;
  rpm <- sensor_value "RPM" ;;
  let heat_gen := (rpm / 1000) * 0.2 + thr * 0.05 in
  coolant <- sensor_value "COOLANT_TEMP" ;;
  let cooling := (coolant - 85) * 0.1 in
  set_sensor_value "COOLANT_TEMP" (coolant + (heat_gen - cooling)) ;;
  coolant <- sensor_value "COOLANT_TEMP" ;;
  oil <- sensor_value "OIL_TEMP" ;;
  let temp_diff := coolant - oil in
  set_sensor_value "OIL_TEMP" (oil + temp_diff * 0.05) ;;
  rpm <- sensor_value "RPM" ;;
  let base_pressure := (rpm / 1000) * 8 + 20 in
  oil <- sensor_value "OIL_TEMP" ;;
  let temp_factor := 1.0 - ((oil - 80) / 200) in
  set_sensor_value "OIL_PRESSURE" (base_pressure * Qclip temp_factor 0.5 1.5) ;;
  rpm <- sensor_value "RPM" ;;
  let fuel := (thr / 100) * 12 + (rpm / 1000) * 0.8 in
  set_sensor_value "FUEL_RATE" fuel ;;
  speed <- sensor_value "SPEED" ;;
  if Qlt_le_dec 0 speed then
    m <- gets mileage ;;
    speed <- sensor_value "SPEED" ;;
    set_self_mileage (m + speed / 3600)
  else ret tt.

Definition set_throttle (t : num) : M VirtualCarSimulator unit :=
  set_self_throttle (np_clip t 0 100) ;;
  _update_sensors.

Definition set_gear (g : num) : M VirtualCarSimulator unit :=
  set_self_gear (np_clip g 1 6) ;;
  _update_sensors.

(** A method call [self.sensors[k].m()] on the sensor object [s] stored under
    [k]: the method runs on the sensor, and what it leaves of the sensor is
    what the dictionary holds afterwards. *)
Definition call_on_sensor {A} (k : string) (s : SimulatedSensor)
  (m : M SimulatedSensor A) : M VirtualCarSimulator A :=
  fun w c =>
    let '(o, w', s') := m w s in
    (o, w', mkCar (dict_update k (fun _ => s') (sensors c))
                  (throttle c) (gear c) (mileage c)).

(** [read_all_sensors]: the dict comprehension visits the channels in
    insertion order and calls [read()] on each. *)
Fixpoint read_each (ks : list string) : M VirtualCarSimulator (dict Reading) :=
  match ks with
  | [] => ret []
  | k :: ks' =>
      d <- gets sensors ;;
      match dict_get k d with
      | None => raise (KeyError k)
      | Some s =>
          r <- call_on_sensor k s SimulatedSensorMethods.read ;;
          rs <- read_each ks' ;;
          ret ((k, r) :: rs)
      end
  end.

Definition read_all_sensors : M VirtualCarSimulator (dict Reading) :=
  d <- gets sensors ;;
  read_each (map fst d).

(** ** Call sequences *)

Inductive call : Type :=
| SetThrottle (v : num)
| SetGear (v : num).

Definition do_call (cl : call) : M VirtualCarSimulator unit :=
  match cl with
  | SetThrottle v => set_throttle v
  | SetGear v => set_gear v
  end.

(** A driver issuing the calls one after the other.  The driver goes on after
    a call that raised, so that the states of every prefix, and of every
    driver that catches the exception, are covered.  The outcomes are
    collected in call order. *)
Fixpoint run_calls (cs : list call) (w : World) (c : VirtualCarSimulator)
  : list (outcome unit) * World * VirtualCarSimulator :=
  match cs with
  | [] => ([], w, c)
  | cl :: cs' =>
      let '(o, w', c') := do_call cl w c in
      let '(os, w'', c'') := run_calls cs' w' c' in
      (o :: os, w'', c'')
  end.

Definition outcomes_of (r : list (outcome unit) * World * VirtualCarSimulator) :=
  fst (fst r).

Definition after (cs : list call) (w : World) (c : VirtualCarSimulator)
  : VirtualCarSimulator :=
  snd (run_calls cs w c).

(** ** Shape of the channel dictionary *)

Definition channel_names : list string :=
  [ "RPM"; "SPEED"; "COOLANT_TEMP"; "ENGINE_LOAD"; "THROTTLE_POS";
    "INTAKE_TEMP"; "MAF"; "FUEL_RATE"; "OIL_TEMP"; "OIL_PRESSURE" ].

(** The model holds exactly the ten channels of [__init__]. *)
Definition has_channels (c : VirtualCarSimulator) : Prop :=
  map fst (sensors c) = channel_names.

Definition channel_dict
  (rpm speed coolant load tpos intake maf fuel oil press : SimulatedSensor)
  : dict SimulatedSensor :=
  [ ("RPM", rpm); ("SPEED", speed); ("COOLANT_TEMP", coolant);
    ("ENGINE_LOAD", load); ("THROTTLE_POS", tpos); ("INTAKE_TEMP", intake);
    ("MAF", maf); ("FUEL_RATE", fuel); ("OIL_TEMP", oil);
    ("OIL_PRESSURE", press) ].

(** The stored, pre-noise value of a channel. *)
Definition true_value (k : string) (c : VirtualCarSimulator) : Q :=
  match dict_get k (sensors c) with
  | Some s => value s
  | None => 0
  end.

(** ** The invariant of the reachable states *)

(** What [__init__] fixes for a channel and no method changes. *)
Definition static (s : SimulatedSensor) : string * Q * Q * Q :=
  (name s, min_value s, max_value s, noise_level s).

Definition config (c : VirtualCarSimulator) : dict (string * Q * Q * Q) :=
  map (fun kv => (fst kv, static (snd kv))) (sensors c).

Definition gear_ok (g : num) : Prop :=
  match g with
  | PyInt z => (1 <= z <= 6)%Z
  | PyFloat q => 1 <= q <= 6
  end.

Record Inv (c : VirtualCarSimulator) : Prop := mkInv {
  inv_config : config c = config init;
  inv_throttle : 0 <= throttle c <= 100;
  inv_gear : gear_ok (gear c);
  inv_rpm : 800 <= true_value "RPM" c <= 5800;
  inv_speed : 0 <= true_value "SPEED" c;
  inv_load : 0 <= true_value "ENGINE_LOAD" c <= 70;
  inv_coolant : 85 <= true_value "COOLANT_TEMP" c <= 146.6;
  inv_oil : 80 <= true_value "OIL_TEMP" c <= 146.6;
  inv_press : 15 <= true_value "OIL_PRESSURE" c <= 80;
  inv_fuel : 0 <= true_value "FUEL_RATE" c <= 20;
  inv_tpos : true_value "THROTTLE_POS" c = 15;
  inv_intake : true_value "INTAKE_TEMP" c = 25;
  inv_maf : true_value "MAF" c = 5;
  inv_mileage : 45230 <= mileage c
}.

(** ** Bounds of a channel *)

Definition within_bounds (s : SimulatedSensor) : Prop :=
  min_value s <= value s <= max_value s.

Definition above_min (s : SimulatedSensor) : Prop :=
  min_value s <= value s.

(** [P] holds of the channel stored under [k]. *)
Definition channel_holds (P : SimulatedSensor -> Prop) (k : string)
  (c : VirtualCarSimulator) : Prop :=
  match dict_get k (sensors c) with
  | Some s => P s
  | None => False
  end.

(** ** The gear the specification asks for *)

(** Python's [round]: the identity on an integer, half to even on a float. *)
Definition py_round (g : num) : Z :=
  match g with
  | PyInt z => z
  | PyFloat q => round_half_even q
  end.

(** [clamp(round(g), 1, 6)], in the words of the specification. *)
Definition spec_gear (g : num) : Z := Z.min (Z.max (py_round g) 1) 6.

(** A call that respects the annotation [gear: int] of [set_gear]. *)
Definition int_gear_call (cl : call) : Prop :=
  match cl with
  | SetGear (PyFloat _) => False
  | _ => True
  end.

(** ** Observations and call sequences of interest *)

(** The part of a model that the calls evolve: the stored value of every
    channel, the control inputs and the mileage. *)
Definition dynamic (c : VirtualCarSimulator) : dict Q * num * num * Q :=
  (map (fun kv => (fst kv, value (snd kv))) (sensors c),
   throttle c, gear c, mileage c).

(** [n] successive calls [set_throttle(0)]. *)
Definition idle_calls (n : nat) : list call := repeat (SetThrottle (PyInt 0)) n.

(** The stored RPM after [n] idle calls. *)
Definition idle_rpm (n : nat) (w : World) (c : VirtualCarSimulator) : Q :=
  true_value "RPM" (after (idle_calls n) w c).

(** [q ^ n] *)
Fixpoint geom (q : Q) (n : nat) : Q :=
  match n with
  | O => 1
  | S n' => q * geom q n'
  end.

(** What is left, after [n] ticks, of the distance of the RPM to its target. *)
Definition decay (n : nat) : Q := geom (9 # 10) n.

(** [n] successive calls [set_throttle(100)]. *)
Definition full_throttle_calls (n : nat) : list call :=
  repeat (SetThrottle (PyInt 100)) n.

(** A number of idle calls after which an RPM starting at [r] is within one
    unit of 800. *)
Definition idle_steps (r : Q) : nat := Z.to_nat (9 * Qceiling (r - 800)).

(** ** Sample worlds and a model with other bounds *)

Definition w0 : World := mkWorld (fun _ => 1 # 2) 0 (fun n => Z.of_nat n) 0.

Definition w1 : World := mkWorld (fun _ => 0) 5 (fun n => (1000 + Z.of_nat n)%Z) 7.

(** The freshly constructed model with every channel's bounds and noise
    level replaced. *)
Definition init_rebounded : VirtualCarSimulator :=
  mkCar (map (fun kv => (fst kv, mkSensor (name (snd kv)) (value (snd kv)) (-1) 9000 0))
             (sensors init))
        (throttle init) (gear init) (mileage init).

(** ** Further observations *)

(** The world after [n] channel reads: [n] draws and [n] clock readings
    consumed. *)
Definition advance (n : nat) (w : World) : World :=
  mkWorld (random_tape w) (n + random_pos w) (clock_tape w) (n + clock_pos w).

(** The RPM that the pass steers to under throttle input [t]. *)
Definition target_rpm_of (t : num) : Q := 800 + numQ (np_clip t 0 100) * 50.

(** ** The test driver *)

(** An f-string before rendering: its template and the values of its fields,
    in order.  Rendering the numbers as text is outside the model. *)
Inductive arg : Type :=
| AInt (z : Z)
| AFloat (q : Q)
| AStr (s : string).

Record fstring : Type := Fmt {
  template : string;
  args : list arg
}.

Record DigitalTwinTester : Type := mkTester {
  car : VirtualCarSimulator;
  history : list (dict Reading)
}.

(** The running script: the tester object and what has been printed. *)
Record Script : Type := mkScript {
  console : list fstring;
  tester : DigitalTwinTester
}.

(** [DigitalTwinTester()] *)
Definition init_tester : DigitalTwinTester := mkTester init [].

Definition print (l : fstring) : M Script unit :=
  modify (fun s => mkScript (console s ++ [l]) (tester s)).

(** [time.sleep(1)]: the clock of the world is read, never set, and what it
    shows next is for the world to say. *)
Definition time_sleep : M Script unit := ret tt.

(** A method call [self.car.m(...)]. *)
Definition on_car {A} (m : M VirtualCarSimulator A) : M Script A :=
  fun w s =>
    let '(o, w', c') := m w (car (tester s)) in
    (o, w', mkScript (console s) (mkTester c' (history (tester s)))).

(** [self.history.append(data)] *)
Definition history_append (data : dict Reading) : M Script unit :=
  modify (fun s => mkScript (console s)
                     (mkTester (car (tester s)) (history (tester s) ++ [data]))).

(** [data[k]['value']] *)
Definition snap_value {Self} (data : dict Reading) (k : string) : M Self Q :=
  match dict_get k data with
  | Some r => ret (reading_value r)
  | None => raise (KeyError k)
  end.

(** [for x in l: body] *)
Fixpoint for_each {Self A} (l : list A) (body : A -> M Self unit) : M Self unit :=
  match l with
  | [] => ret tt
  | x :: l' => body x ;; for_each l' body
  end.

(** [[f(x) for x in l]] *)
Fixpoint comprehension {Self A B} (l : list A) (f : A -> M Self B) : M Self (list B) :=
  match l with
  | [] => ret []
  | x :: l' => y <- f x ;; ys <- comprehension l' f ;; ret (y :: ys)
  end.

(** [range(n)] *)
Definition py_range (n : Z) : list Z := map Z.of_nat (seq 0 (Z.to_nat n)).

(** [s * n] on a string *)
Fixpoint str_mul (s : string) (n : nat) : string :=
  match n with
  | O => EmptyString
  | S n' => s ++ str_mul s n'
  end.

Definition newline : string := String (Ascii.ascii_of_nat 10) EmptyString.

Definition rule : fstring := Fmt (str_mul "=" 50) [].

Definition test_idle (duration : Z) : M Script unit :=
  print (Fmt (newline ++ " TEST 1: Idle Engine") []) ;;
  print rule ;;
  on_car (set_throttle (PyInt 0)) ;;
  for_each (py_range duration) (fun i =>
    data <- on_car read_all_sensors ;;
    history_append data ;;
    rpm <- snap_value data "RPM" ;;
    temp <- snap_value data "COOLANT_TEMP" ;;
    print (Fmt "Second {}: RPM={}, Temp={:.1f}°C"
               [AInt (i + 1); AFloat rpm; AFloat temp]) ;;
    time_sleep).

Definition test_acceleration (duration : Z) : M Script unit :=
  print (Fmt (newline ++ " TEST 2: Acceleration") []) ;;
  print rule ;;
  for_each (py_range duration) (fun i =>
    let throttle := Z.min 100 (i * 10) in
    on_car (set_throttle (PyInt throttle)) ;;
    data <- on_car read_all_sensors ;;
    history_append data ;;
    rpm <- snap_value data "RPM" ;;
    speed <- snap_value data "SPEED" ;;
    print (Fmt "Second {}: Throttle={}%, RPM={:.0f}, Speed={:.1f} km/h"
               [AInt (i + 1); AInt throttle; AFloat rpm; AFloat speed]) ;;
    time_sleep).

Definition test_steady_cruise (duration : Z) : M Script unit :=
  print (Fmt (newline ++ " TEST 3: Steady Cruise") []) ;;
  print rule ;;
  on_car (set_throttle (PyInt 50)) ;;
  on_car (set_gear (PyInt 5)) ;;
  for_each (py_range duration) (fun i =>
    data <- on_car read_all_sensors ;;
    history_append data ;;
    speed <- snap_value data "SPEED" ;;
    temp <- snap_value data "COOLANT_TEMP" ;;
    fuel <- snap_value data "FUEL_RATE" ;;
    print (Fmt "Second {}: Speed={:.1f} km/h, Temp={:.1f}°C, Fuel={:.2f} L/h"
               [AInt (i + 1); AFloat speed; AFloat temp; AFloat fuel]) ;;
    time_sleep).

Definition high_temp_warning : string := "⚠️  HIGH TEMP".
Definition high_rpm_warning : string := "⚠️  HIGH RPM".
Definition no_warning : string := "✓ OK".

Definition test_high_load (duration : Z) : M Script unit :=
  print (Fmt (newline ++ " TEST 4: High Load (Stress Test)") []) ;;
  print rule ;;
  on_car (set_throttle (PyInt 90)) ;;
  on_car (set_gear (PyInt 3)) ;;
  for_each (py_range duration) (fun i =>
    data <- on_car read_all_sensors ;;
    history_append data ;;
    temp <- snap_value data "COOLANT_TEMP" ;;
    let warnings := if Qlt_le_dec 100 temp then [high_temp_warning] else [] in
    rpm <- snap_value data "RPM" ;;
    let warnings :=
      if Qlt_le_dec 6000 rpm then (warnings ++ [high_rpm_warning])%list
      else warnings in
    let warn_str :=
      match warnings with
      | [] => no_warning
      | _ => String.concat " " warnings
      end in
    load <- snap_value data "ENGINE_LOAD" ;;
    temp <- snap_value data "COOLANT_TEMP" ;;
    print (Fmt "Second {}: Load={:.1f}%, Temp={:.1f}°C, {}"
               [AInt (i + 1); AFloat load; AFloat temp; AStr warn_str]) ;;
    time_sleep).

(** [np.mean], [np.max] and [np.min] of the list [x :: xs]. *)
Definition np_mean (x : Q) (xs : list Q) : Q :=
  fold_left Qplus xs x / inject_Z (Z.of_nat (S (List.length xs))).

Definition np_max (x : Q) (xs : list Q) : Q := fold_left Qmax xs x.

Definition np_min (x : Q) (xs : list Q) : Q := fold_left Qmin xs x.

(** The scores of [analyze_health]. *)
Definition cooling_score (avg_temp : Q) : Q :=
  Qmax 0 (100 - Qabs (avg_temp - 85) * 5).

Definition lub_score (min_oil_pressure : Q) : Q :=
  Qmax 0 (100 - Qmax 0 (25 - min_oil_pressure) * 4).

Definition overall_score (cooling lub : Q) : Q := (cooling + lub) / 2.

Definition risk_of (overall : Q) : string :=
  if Qlt_le_dec 90 overall then "LOW"
  else if Qlt_le_dec 75 overall then "MEDIUM"
  else "HIGH".

(** ['✓' if score > 80 else '⚠️'] *)
Definition score_mark (score : Q) : string :=
  if Qlt_le_dec 80 score then "✓" else "⚠️".

Definition analyze_health : M Script unit :=
  print (Fmt (newline ++ " HEALTH ANALYSIS") []) ;;
  print rule ;;
  h <- gets (fun s => history (tester s)) ;;
  match h with
  | [] => print (Fmt "No data collected" [])
  | d :: ds =>
      t <- snap_value d "COOLANT_TEMP" ;;
      ts <- comprehension ds (fun d => snap_value d "COOLANT_TEMP") ;;
      r <- snap_value d "RPM" ;;
      rs <- comprehension ds (fun d => snap_value d "RPM") ;;
      p <- snap_value d "OIL_PRESSURE" ;;
      ps <- comprehension ds (fun d => snap_value d "OIL_PRESSURE") ;;
      let avg_temp := np_mean t ts in
      let max_temp := np_max t ts in
      let avg_rpm := np_mean r rs in
      let max_rpm := np_max r rs in
      let min_oil_pressure := np_min p ps in
      print (Fmt "Average Temperature:  {:.1f}°C" [AFloat avg_temp]) ;;
      print (Fmt "Maximum Temperature:  {:.1f}°C" [AFloat max_temp]) ;;
      print (Fmt "Average RPM:          {:.0f}" [AFloat avg_rpm]) ;;
      print (Fmt "Maximum RPM:          {:.0f}" [AFloat max_rpm]) ;;
      print (Fmt "Minimum Oil Pressure: {:.1f} psi" [AFloat min_oil_pressure]) ;;
      print (Fmt (newline ++ " HEALTH SCORES:") []) ;;
      let cooling := cooling_score avg_temp in
      print (Fmt "Cooling System:       {:.1f}% {}"
                 [AFloat cooling; AStr (score_mark cooling)]) ;;
      let lub := lub_score min_oil_pressure in
      print (Fmt "Lubrication System:   {:.1f}% {}"
                 [AFloat lub; AStr (score_mark lub)]) ;;
      let overall := overall_score cooling lub in
      print (Fmt "Overall Health:       {:.1f}%" [AFloat overall]) ;;
      print (Fmt (newline ++ "Failure Risk:         {}") [AStr (risk_of overall)])
  end.

(** The table of [predict_maintenance]: item, interval and last service. *)
Definition maintenance : dict (Z * Z) :=
  [ ("Oil Change", (5000, 43000)%Z);
    ("Spark Plugs", (50000, 30000)%Z);
    ("Air Filter", (20000, 40000)%Z);
    ("Coolant Flush", (40000, 35000)%Z);
    ("Timing Belt", (100000, 50000)%Z) ].

Definition remaining_km (interval last_service : Z) (current_mileage : Q) : Q :=
  let miles_since := current_mileage - inject_Z last_service in
  inject_Z interval - miles_since.

Definition service_mark (interval : Z) (remaining : Q) : string :=
  if Qlt_le_dec (inject_Z interval * 0.2) remaining then "✓" else "⚠️".

Definition predict_maintenance : M Script unit :=
  print (Fmt (newline ++ " MAINTENANCE PREDICTIONS") []) ;;
  print rule ;;
  current_mileage <- gets (fun s => mileage (car (tester s))) ;;
  for_each maintenance (fun kv =>
    let '(item, (interval, last_service)) := kv in
    let remaining := remaining_km interval last_service current_mileage in
    let status := service_mark interval remaining in
    print (Fmt "{:20} Due in: {:>8.0f} km {}"
               [AStr item; AFloat remaining; AStr status])).

(** A snapshot with the ten channels whose readings lie within the bounds
    that [__init__] gives their channel. *)
Definition snapshot_ok (data : dict Reading) : Prop :=
  map fst data = channel_names /\
  forall k rd,
    In (k, rd) data ->
    channel_holds (fun s => min_value s <= reading_value rd <= max_value s) k init.

(** A random source whose draws all lie in [0, 1], as those of
    [random.random()] do. *)
Definition unit_draws (w : World) : Prop :=
  forall n, 0 <= random_tape w n <= 1.

(** The throttle inputs of [test_acceleration]. *)
Definition ramp_calls (duration : Z) : list call :=
  map (fun i => SetThrottle (PyInt (Z.min 100 (i * 10)))) (py_range duration).

(** What a scenario of the driver does with input [duration]: it completes,
    leaves the car as the calls [setup] leave it, appends one good snapshot
    per second to the history, prints two title lines and one line per
    second, and uses ten draws and ten clock readings per second. *)
Definition scenario_ok (setup : list call) (duration : Z) (m : M Script unit)
  : Prop :=
  forall w s z,
    Inv (car (tester s)) -> gear (car (tester s)) = PyInt z ->
    exists new lines,
      m w s =
      (Ok tt, advance (10 * Z.to_nat duration) w,
       mkScript (console s ++ lines)
         (mkTester (after setup w (car (tester s)))
                   (history (tester s) ++ new))) /\
      List.length new = Z.to_nat duration /\
      List.length lines = (2 + Z.to_nat duration)%nat /\
      Forall snapshot_ok new.

(** The texts that [test_high_load] prints when the RPM reading is not
    above 6000. *)
Definition calm_line (l : fstring) : Prop :=
  forall s, In (AStr s) (args l) -> s = no_warning \/ s = high_temp_warning.

(** ** Rounding to two decimals, as a specification *)

(** [y] is [x] rounded to two decimal places: a whole number of hundredths,
    at most half a hundredth from [x], and an even number of hundredths when
    [x] lies exactly half way between two. *)
Definition rounds_to_2_decimals (x y : Q) : Prop :=
  exists n : Z,
    y == inject_Z n / 100 /\
    - (1 # 200) <= y - x <= 1 # 200 /\
    (y - x == 1 # 200 \/ x - y == 1 # 200 -> Z.even n = true).

(** A world whose first draws make noise that needs rounding (first read)
    and clamping (second read). *)
Definition w2 : World :=
  mkWorld (fun n => match n with O => 123456 # 1000000 | _ => 1 # 10 end) 0
          (fun n => Z.of_nat n) 0.

(** * Properties *)

(** ** The recomputation pass on a model with the ten channels *)

Lemma has_channels_shape c :
  has_channels c ->
  exists s0 s1 s2 s3 s4 s5 s6 s7 s8 s9,
    sensors c = channel_dict s0 s1 s2 s3 s4 s5 s6 s7 s8 s9.
Proof.
  unfold has_channels, channel_names. intros H.
  repeat match type of H with
  | map fst ?l = _ :: _ =>
      destruct l as [|[? ?] ?]; [discriminate H|];
      cbn [map fst] in H; injection H as -> H
  end.
  match type of H with map fst ?l = [] => destruct l; [|discriminate H] end.
  do 10 eexists. reflexivity.
Qed.

Ltac run_monad :=
  unfold _update_sensors, sensor_value, set_sensor_value,
    set_self_mileage, set_self_throttle, set_self_gear, bind, gets, modify,
    ret, raise, lift.

Lemma update_sensors_run w s0 s1 s2 s3 s4 s5 s6 s7 s8 s9 (thr g : num) mil :
  let rpm := value s0 + (800 + thr * 50 - value s0) * 0.1 in
  let coolant := value s2 + (rpm / 1000 * 0.2 + thr * 0.05 - (value s2 - 85) * 0.1) in
  let oil := value s8 + (coolant - value s8) * 0.05 in
  let press := (rpm / 1000 * 8 + 20) * Qclip (1.0 - (oil - 80) / 200) 0.5 1.5 in
  let fuel := thr / 100 * 12 + rpm / 1000 * 0.8 in
  _update_sensors w (mkCar (channel_dict s0 s1 s2 s3 s4 s5 s6 s7 s8 s9) thr g mil) =
  match list_getitem gear_ratios g with
  | Raise e =>
      (Raise e, w,
       mkCar (channel_dict (with_value rpm s0) s1 s2 s3 s4 s5 s6 s7 s8 s9) thr g mil)
  | Ok ratio =>
      let speed := rpm * ratio / 60 in
      (Ok tt, w,
       mkCar (channel_dict (with_value rpm s0) (with_value speed s1)
                (with_value coolant s2) (with_value (thr * 0.7) s3) s4 s5 s6
                (with_value fuel s7) (with_value oil s8) (with_value press s9))
             thr g
             (if Qlt_le_dec 0 speed then mil + speed / 3600 else mil))
  end.
Proof.
  intros rpm coolant oil press fuel.
  run_monad. cbn [sensors throttle gear mileage channel_dict dict_get dict_update
                  String.eqb Ascii.eqb Bool.eqb value with_value].
  fold rpm.
  destruct (list_getitem gear_ratios g) as [ratio|e]; [|reflexivity].
  cbn [sensors throttle gear mileage channel_dict dict_get dict_update
       String.eqb Ascii.eqb Bool.eqb value with_value].
  fold coolant. fold oil. fold press. fold fuel.
  destruct (Qlt_le_dec 0 (rpm * ratio / 60)); reflexivity.
Qed.

Lemma set_throttle_unfold t w c :
  set_throttle t w c =
  _update_sensors w (mkCar (sensors c) (np_clip t 0 100) (gear c) (mileage c)).
Proof. reflexivity. Qed.

Lemma set_gear_unfold g w c :
  set_gear g w c =
  _update_sensors w (mkCar (sensors c) (throttle c) (np_clip g 1 6) (mileage c)).
Proof. reflexivity. Qed.

(** ** Clipping and rounding *)

Lemma Qclip_bounds x lo hi : lo <= hi -> lo <= Qclip x lo hi <= hi.
Proof.
  intros H. unfold Qclip.
  destruct (Q.min_spec (Qmax x lo) hi) as [[L E]|[L E]];
  destruct (Q.max_spec x lo) as [[L' F]|[L' F]];
  rewrite E; rewrite ?F; rewrite ?F in L; split; lra.
Qed.

Lemma Qclip_inside x lo hi : lo <= x <= hi -> Qclip x lo hi == x.
Proof.
  intros [H1 H2]. unfold Qclip.
  destruct (Q.min_spec (Qmax x lo) hi) as [[L E]|[L E]];
  destruct (Q.max_spec x lo) as [[L' F]|[L' F]];
  rewrite E; rewrite ?F; rewrite ?F in L; lra.
Qed.

Lemma np_clip_bounds x lo hi :
  (lo <= hi)%Z -> inject_Z lo <= numQ (np_clip x lo hi) <= inject_Z hi.
Proof.
  intros H. destruct x as [z|q]; cbn [np_clip numQ].
  - rewrite <- !Zle_Qle. lia.
  - apply Qclip_bounds. rewrite <- Zle_Qle. exact H.
Qed.

Lemma round_half_even_floor x :
  round_half_even x = Qfloor x \/
  (round_half_even x = (Qfloor x + 1)%Z /\ inject_Z (Qfloor x) < x).
Proof.
  unfold round_half_even.
  destruct (Qcompare (x - inject_Z (Qfloor x)) (1 # 2)) eqn:E.
  - apply Qeq_alt in E. destruct (Z.even (Qfloor x)); [now left|].
    right. split; [reflexivity|lra].
  - now left.
  - apply Qgt_alt in E. right. split; [reflexivity|lra].
Qed.

Lemma round_half_even_between (a b : Z) x :
  inject_Z a <= x <= inject_Z b -> (a <= round_half_even x <= b)%Z.
Proof.
  intros [Ha Hb].
  assert (Hf : (a <= Qfloor x)%Z).
  { rewrite <- (Qfloor_Z a). now apply Qfloor_resp_le. }
  pose proof (Qfloor_le x) as Hfl.
  assert (Hfb : (Qfloor x <= b)%Z) by (rewrite Zle_Qle; lra).
  destruct (round_half_even_floor x) as [->|[-> Hlt]]; [lia|].
  split; [lia|].
  assert (Qfloor x < b)%Z by (rewrite Zlt_Qlt; lra).
  lia.
Qed.

(** A reading rounded to two decimals stays between integer bounds. *)
Lemma round2_between (a b : Z) x :
  inject_Z a <= x <= inject_Z b -> inject_Z a <= round2 x <= inject_Z b.
Proof.
  intros [Ha Hb]. unfold round2.
  assert (H : (100 * a <= round_half_even (x * 100) <= 100 * b)%Z).
  { apply round_half_even_between. rewrite !inject_Z_mult.
    change (inject_Z 100) with 100. split; lra. }
  destruct H as [H1 H2].
  rewrite Zle_Qle in H1, H2. rewrite inject_Z_mult in H1, H2.
  change (inject_Z 100) with 100 in H1, H2.
  set (r := inject_Z (round_half_even (x * 100))) in *.
  split.
  - apply Qle_shift_div_l; lra.
  - apply Qle_shift_div_r; lra.
Qed.

(** ** Preservation of the invariant *)

Lemma config_has_channels c : config c = config init -> has_channels c.
Proof.
  intros H. unfold has_channels.
  apply (f_equal (map fst)) in H. unfold config in H.
  rewrite !map_map in H. cbn [fst] in H. exact H.
Qed.

Lemma gear_ratio_lookup g :
  gear_ok g ->
  (exists r, list_getitem gear_ratios g = Ok r /\ 0.8 <= r <= 3.5) \/
  (list_getitem gear_ratios g = Raise TypeError /\ exists q, g = PyFloat q).
Proof.
  destruct g as [z|q]; cbn [gear_ok]; intros H.
  - left.
    assert (E : (z = 1 \/ z = 2 \/ z = 3 \/ z = 4 \/ z = 5 \/ z = 6)%Z) by lia.
    destruct E as [->|[->|[->|[->|[->| ->]]]]]; cbn;
      eexists; (split; [reflexivity|split; lra]).
  - right. split; [reflexivity|now exists q].
Qed.

Lemma np_clip_gear_ok g : gear_ok (np_clip g 1 6).
Proof.
  destruct g as [z|q]; cbn [np_clip gear_ok].
  - lia.
  - apply (Qclip_bounds q 1 6). lra.
Qed.

Ltac eval_channels :=
  unfold true_value, config in *;
  cbn [sensors throttle gear mileage channel_dict dict_get dict_update map fst
       snd String.eqb Ascii.eqb Bool.eqb value with_value static name min_value
       max_value noise_level init] in *.

(** [lra] does not divide: the divisions of the pass, all by literals, are
    turned into multiplications. *)
Ltac undiv :=
  unfold Qdiv in *;
  change (/ 1000) with (1 # 1000) in *;
  change (/ 60) with (1 # 60) in *;
  change (/ 200) with (1 # 200) in *;
  change (/ 100) with (1 # 100) in *;
  change (/ 3600) with (1 # 3600) in *.

Lemma Inv_init : Inv init.
Proof.
  constructor; eval_channels; cbn [numQ gear_ok]; unfold inject_Z;
    try reflexivity; try (split; lra); try lra.
  lia.
Qed.

Lemma Inv_update w c : Inv c -> Inv (self_of (_update_sensors w c)).
Proof.
  intros I.
  destruct (has_channels_shape c (config_has_channels c (inv_config c I)))
    as (s0 & s1 & s2 & s3 & s4 & s5 & s6 & s7 & s8 & s9 & E).
  destruct I as [Icf [It1 It2] Ig [Ir1 Ir2] Is [Il1 Il2] [Ic1 Ic2] [Io1 Io2]
                 [Ip1 Ip2] [If1 If2] Itp Iin Imaf Imil].
  destruct c as [d thr g mil]. cbn [sensors] in E. subst d.
  rewrite update_sensors_run. cbn zeta.
  eval_channels. undiv.
  set (rpm := value s0 + (800 + thr * 50 - value s0) * 0.1).
  assert (Hrpm : 800 <= rpm <= 5800) by (unfold rpm; split; lra).
  destruct (gear_ratio_lookup g Ig) as [(r & -> & Hr1 & Hr2)|[-> _]];
    unfold self_of; cbn [snd].
  - set (coolant := value s2 + _).
    assert (Hcool : 85 <= coolant <= 146.6) by (unfold coolant; split; lra).
    set (oil := value s8 + _).
    assert (Hoil : 80 <= oil <= 146.6) by (unfold oil; split; lra).
    assert (Hsp : 0 <= rpm * r * (1 # 60)) by nra.
    constructor; eval_channels; try assumption; try (split; lra).
    + set (f := 1.0 - _).
      assert (Hf : Qclip f 0.5 1.5 == f)
        by (apply Qclip_inside; unfold f; split; lra).
      rewrite Hf. unfold f. split; nra.
    + destruct (Qlt_le_dec 0 (rpm * r * (1 # 60))); lra.
  - constructor; eval_channels; try assumption; try (split; lra).
Qed.

Lemma Inv_call cl w c : Inv c -> Inv (self_of (do_call cl w c)).
Proof.
  intros I. destruct cl as [t|g]; cbn [do_call].
  - rewrite set_throttle_unfold. apply Inv_update.
    destruct I; constructor; eval_channels; try assumption.
    apply (np_clip_bounds t 0 100). lia.
  - rewrite set_gear_unfold. apply Inv_update.
    destruct I; constructor; eval_channels; try assumption.
    apply np_clip_gear_ok.
Qed.

Lemma run_calls_cons cl cs w c :
  after (cl :: cs) w c =
  after cs (world_of (do_call cl w c)) (self_of (do_call cl w c)).
Proof.
  unfold after, world_of, self_of. cbn [run_calls].
  destruct (do_call cl w c) as [[o w'] c']. cbn [fst snd].
  destruct (run_calls cs w' c') as [[os w''] c'']. reflexivity.
Qed.

(** Every state the driver can reach from a fresh model satisfies [Inv]. *)
Lemma Inv_after cs : forall w c, Inv c -> Inv (after cs w c).
Proof.
  induction cs as [|cl cs IH]; intros w c I.
  - exact I.
  - rewrite run_calls_cons. apply IH. now apply Inv_call.
Qed.

Lemma outcomes_cons cl cs w c :
  outcomes_of (run_calls (cl :: cs) w c) =
  result_of (do_call cl w c) ::
  outcomes_of (run_calls cs (world_of (do_call cl w c)) (self_of (do_call cl w c))).
Proof.
  unfold outcomes_of, result_of, world_of, self_of. cbn [run_calls].
  destruct (do_call cl w c) as [[o w'] c']. cbn [fst snd].
  destruct (run_calls cs w' c') as [[os w''] c'']. reflexivity.
Qed.

(** What the pass leaves alone: the control inputs, the channels' static
    part and the outside world. *)
Lemma update_frame w c :
  has_channels c ->
  throttle (self_of (_update_sensors w c)) = throttle c /\
  gear (self_of (_update_sensors w c)) = gear c /\
  config (self_of (_update_sensors w c)) = config c /\
  world_of (_update_sensors w c) = w.
Proof.
  intros H.
  destruct (has_channels_shape c H)
    as (s0 & s1 & s2 & s3 & s4 & s5 & s6 & s7 & s8 & s9 & E).
  destruct c as [d thr g mil]. cbn [sensors] in E. subst d.
  rewrite update_sensors_run. cbn zeta.
  destruct (list_getitem gear_ratios g); repeat split.
Qed.

Lemma call_has_channels cl w c :
  has_channels c -> has_channels (self_of (do_call cl w c)).
Proof.
  intros H. unfold has_channels in *.
  assert (E : forall c0, map fst (sensors c0) = map fst (config c0)).
  { intros c0. unfold config. rewrite map_map. reflexivity. }
  destruct cl as [t|g]; cbn [do_call];
    [rewrite set_throttle_unfold|rewrite set_gear_unfold];
    rewrite E;
    match goal with |- context [_update_sensors w ?c0] =>
      destruct (update_frame w c0 H) as (_ & _ & -> & _)
    end; rewrite <- E; exact H.
Qed.

Lemma call_world cl w c :
  has_channels c -> world_of (do_call cl w c) = w.
Proof.
  intros H.
  destruct cl as [t|g]; cbn [do_call];
    [rewrite set_throttle_unfold|rewrite set_gear_unfold];
    match goal with |- context [_update_sensors w ?c0] =>
      destruct (update_frame w c0 H) as (_ & _ & _ & ->)
    end; reflexivity.
Qed.

(** ** Bounds of the stored values *)

Lemma Inv_channel_bounds c :
  Inv c ->
  exists s0 s1 s2 s3 s4 s5 s6 s7 s8 s9,
    sensors c = channel_dict s0 s1 s2 s3 s4 s5 s6 s7 s8 s9 /\
    map static [s0; s1; s2; s3; s4; s5; s6; s7; s8; s9] =
    map (fun kv => static (snd kv)) (sensors init).
Proof.
  intros I.
  destruct (has_channels_shape c (config_has_channels c (inv_config c I)))
    as (s0 & s1 & s2 & s3 & s4 & s5 & s6 & s7 & s8 & s9 & E).
  exists s0, s1, s2, s3, s4, s5, s6, s7, s8, s9. split; [exact E|].
  pose proof (inv_config c I) as H. unfold config in H. rewrite E in H.
  apply (f_equal (map snd)) in H. rewrite !map_map in H. exact H.
Qed.

(** C10. From the freshly constructed model and after any sequence of
    [set_throttle] and [set_gear] calls, whatever their arguments and
    outcomes, the model still has its RPM and SPEED channels, the stored RPM
    lies in [800, 5800] and the stored speed is non-negative. *)
Theorem rpm_stays_in_800_5800 (cs : list call) (w : World) :
  has_channels (after cs w init) /\
  800 <= true_value "RPM" (after cs w init) <= 5800 /\
  0 <= true_value "SPEED" (after cs w init).
Proof.
  pose proof (Inv_after cs w init Inv_init) as I.
  split; [|split].
  - apply config_has_channels, I.
  - apply I.
  - apply I.
Qed.

(** C1, as amended.  From the freshly constructed model and after any
    sequence of [set_throttle] and [set_gear] calls, the stored values of RPM,
    ENGINE_LOAD, THROTTLE_POS, INTAKE_TEMP, MAF, FUEL_RATE and OIL_PRESSURE
    lie within the channel's [min_value, max_value], and those of SPEED,
    COOLANT_TEMP and OIL_TEMP are at least the channel's [min_value]. *)
Theorem stored_values_partly_bounded (cs : list call) (w : World) :
  Forall (fun k => channel_holds within_bounds k (after cs w init))
    ["RPM"; "ENGINE_LOAD"; "THROTTLE_POS"; "INTAKE_TEMP"; "MAF"; "FUEL_RATE";
     "OIL_PRESSURE"] /\
  Forall (fun k => channel_holds above_min k (after cs w init))
    ["SPEED"; "COOLANT_TEMP"; "OIL_TEMP"].
Proof.
  pose proof (Inv_after cs w init Inv_init) as I.
  destruct (Inv_channel_bounds _ I)
    as (s0 & s1 & s2 & s3 & s4 & s5 & s6 & s7 & s8 & s9 & E & St).
  destruct I as [_ _ _ [Ir1 Ir2] Is [Il1 Il2] [Ic1 Ic2] [Io1 Io2]
                 [Ip1 Ip2] [If1 If2] Itp Iin Imaf _].
  unfold true_value in *. rewrite E in *.
  cbn [sensors init map snd static channel_dict dict_get String.eqb Ascii.eqb
       Bool.eqb name min_value max_value noise_level] in *.
  unfold static in St.
  injection St as N0 L0 U0 _ N1 L1 U1 _ N2 L2 U2 _ N3 L3 U3 _ N4 L4 U4 _
    N5 L5 U5 _ N6 L6 U6 _ N7 L7 U7 _ N8 L8 U8 _ N9 L9 U9 _.
  split; repeat apply Forall_cons; try apply Forall_nil;
    unfold channel_holds, within_bounds, above_min; rewrite E;
    cbn [channel_dict dict_get String.eqb Ascii.eqb Bool.eqb].
  - rewrite L0, U0. split; lra.
  - rewrite L3, U3. split; lra.
  - rewrite L4, U4, Itp. split; lra.
  - rewrite L5, U5, Iin. split; lra.
  - rewrite L6, U6, Imaf. split; lra.
  - rewrite L7, U7. split; lra.
  - rewrite L9, U9. split; lra.
  - rewrite L1. lra.
  - rewrite L2. lra.
  - rewrite L8. lra.
Qed.

(** The RPM channel after a tick: a tenth of the way to the target, whatever
    the outcome of the rest of the pass. *)
Lemma rpm_after_update w c :
  has_channels c ->
  true_value "RPM" (self_of (_update_sensors w c)) =
  true_value "RPM" c + (800 + throttle c * 50 - true_value "RPM" c) * 0.1.
Proof.
  intros H.
  destruct (has_channels_shape c H)
    as (s0 & s1 & s2 & s3 & s4 & s5 & s6 & s7 & s8 & s9 & E).
  destruct c as [d thr g mil]. cbn [sensors] in E. subst d.
  rewrite update_sensors_run. cbn zeta.
  destruct (list_getitem gear_ratios g); reflexivity.
Qed.

(** C2, as amended.  From the freshly constructed model, one call
    [set_throttle(50)] leaves the stored RPM at 1050: the target is
    800 + 50 * 50 = 3300 and the RPM moves a tenth of the way from 800. *)
Theorem rpm_after_half_throttle (w : World) :
  result_of (set_throttle (PyInt 50) w init) = Ok tt /\
  true_value "RPM" (self_of (set_throttle (PyInt 50) w init)) == 1050.
Proof.
  split.
  - reflexivity.
  - rewrite set_throttle_unfold, rpm_after_update by reflexivity.
    reflexivity.
Qed.

(** C2 as stated fails: the stored RPM after [set_throttle(50)] is not 825. *)
Lemma half_throttle_rpm_is_not_825 :
  ~ true_value "RPM" (self_of (set_throttle (PyInt 50) w0 init)) == 825.
Proof.
  rewrite set_throttle_unfold, rpm_after_update by reflexivity.
  intros H. vm_compute in H. discriminate H.
Qed.

(** C3, as amended.  On a model with its ten channels, [set_gear] stores an
    integer gear clamped to 1..6, which is [clamp(round(g), 1, 6)] since
    rounding an integer changes nothing, and stores a float gear clamped to
    [1, 6] without rounding it. *)
Theorem set_gear_clamps_without_rounding (w : World) (c : VirtualCarSimulator) :
  has_channels c ->
  (forall z, gear (self_of (set_gear (PyInt z) w c)) = PyInt (spec_gear (PyInt z))) /\
  (forall q, gear (self_of (set_gear (PyFloat q) w c)) = PyFloat (Qclip q 1 6)).
Proof.
  intros H. split; intros x; rewrite set_gear_unfold;
    match goal with |- context [_update_sensors w ?c0] =>
      destruct (update_frame w c0 H) as (_ & -> & _ & _)
    end; reflexivity.
Qed.

Lemma set_gear_clamps_without_rounding_witness :
  has_channels init /\
  gear (self_of (set_gear (PyInt 9) w0 init)) = PyInt 6 /\
  gear (self_of (set_gear (PyFloat 2.7) w0 init)) = PyFloat (Qclip 2.7 1 6).
Proof.
  split; [reflexivity|].
  destruct (set_gear_clamps_without_rounding w0 init eq_refl) as [Hz Hq].
  split; [apply (Hz 9%Z)|apply (Hq 2.7)].
Defined.

(** C3 as stated fails: [set_gear(2.7)] stores 2.7, and
    [clamp(round(2.7), 1, 6)] is 3. *)
Lemma set_gear_does_not_round :
  spec_gear (PyFloat 2.7) = 3%Z /\
  ~ numQ (gear (self_of (set_gear (PyFloat 2.7) w0 init)))
    == inject_Z (spec_gear (PyFloat 2.7)).
Proof.
  split; [reflexivity|].
  rewrite set_gear_unfold.
  destruct (update_frame w0
              (mkCar (sensors init) (throttle init) (np_clip (PyFloat 2.7) 1 6)
                     (mileage init)) eq_refl) as (_ & -> & _ & _).
  intros H. vm_compute in H. discriminate H.
Qed.

(** ** Completion of the calls *)

Lemma update_completes w c z :
  Inv c -> gear c = PyInt z -> result_of (_update_sensors w c) = Ok tt.
Proof.
  intros I G.
  destruct (has_channels_shape c (config_has_channels c (inv_config c I)))
    as (s0 & s1 & s2 & s3 & s4 & s5 & s6 & s7 & s8 & s9 & E).
  pose proof (inv_gear c I) as Ig.
  destruct c as [d thr g mil]. cbn [sensors gear] in *. subst d g.
  rewrite update_sensors_run. cbn zeta.
  destruct (gear_ratio_lookup _ Ig) as [(r & -> & _)|[_ [q Hq]]].
  - reflexivity.
  - discriminate Hq.
Qed.

Lemma update_float_gear w c q :
  has_channels c -> gear c = PyFloat q ->
  result_of (_update_sensors w c) = Raise TypeError.
Proof.
  intros H G.
  destruct (has_channels_shape c H)
    as (s0 & s1 & s2 & s3 & s4 & s5 & s6 & s7 & s8 & s9 & E).
  destruct c as [d thr g mil]. cbn [sensors gear] in *. subst d g.
  rewrite update_sensors_run. reflexivity.
Qed.

Lemma call_completes cl w c z :
  Inv c -> gear c = PyInt z -> int_gear_call cl ->
  result_of (do_call cl w c) = Ok tt /\
  exists z', gear (self_of (do_call cl w c)) = PyInt z'.
Proof.
  intros I G Hcl.
  pose proof (config_has_channels c (inv_config c I)) as Hc.
  pose proof (Inv_call cl w c I) as I'.
  destruct cl as [t|[z'|q]]; cbn [do_call int_gear_call] in *;
    try contradiction.
  - rewrite set_throttle_unfold in *.
    match goal with |- context [_update_sensors w ?c0] =>
      destruct (update_frame w c0 Hc) as (_ & Eg & _ & _);
      assert (I0 : Inv c0)
    end.
    { destruct I; constructor; eval_channels; try assumption.
      apply (np_clip_bounds t 0 100). lia. }
    split; [exact (update_completes w _ z I0 G)|].
    exists z. rewrite Eg. exact G.
  - rewrite set_gear_unfold in *.
    match goal with |- context [_update_sensors w ?c0] =>
      destruct (update_frame w c0 Hc) as (_ & Eg & _ & _);
      assert (I0 : Inv c0)
    end.
    { destruct I; constructor; eval_channels; try assumption.
      apply (np_clip_gear_ok (PyInt z')). }
    split; [exact (update_completes w _ _ I0 eq_refl)|].
    eexists. rewrite Eg. reflexivity.
Qed.

Lemma calls_complete cs :
  forall w c z,
    Inv c -> gear c = PyInt z -> Forall int_gear_call cs ->
    Forall (fun o => o = Ok tt) (outcomes_of (run_calls cs w c)) /\
    exists z', gear (after cs w c) = PyInt z'.
Proof.
  induction cs as [|cl cs IH]; intros w c z I G Hcs.
  - split; [constructor|now exists z].
  - inversion Hcs as [|? ? Hcl Hcs']; subst.
    destruct (call_completes cl w c z I G Hcl) as [Hok [z' G']].
    rewrite outcomes_cons, run_calls_cons.
    destruct (IH (world_of (do_call cl w c)) (self_of (do_call cl w c)) z'
                (Inv_call cl w c I) G' Hcs') as [Hos Hg].
    split; [constructor; assumption|exact Hg].
Qed.

(** C4, as amended.  From the freshly constructed model, every call of a
    sequence whose [set_gear] arguments are integers completes without an
    exception, whatever the values: the inputs are clamped, the stored
    throttle ends in [0, 100] and the stored gear is an integer of 1..6.
    A float passed to [set_gear] is clamped and stored, and the gear-ratio
    lookup of the same call raises [TypeError]. *)
Theorem calls_with_integer_gear_complete (cs : list call) (w : World) :
  (Forall int_gear_call cs ->
   Forall (fun o => o = Ok tt) (outcomes_of (run_calls cs w init)) /\
   0 <= throttle (after cs w init) <= 100 /\
   exists z, gear (after cs w init) = PyInt z /\ (1 <= z <= 6)%Z) /\
  (forall q w',
     result_of (set_gear (PyFloat q) w' (after cs w init)) = Raise TypeError /\
     gear (self_of (set_gear (PyFloat q) w' (after cs w init)))
     = PyFloat (Qclip q 1 6)).
Proof.
  pose proof (Inv_after cs w init Inv_init) as I.
  pose proof (config_has_channels _ (inv_config _ I)) as H.
  split.
  - intros Hcs.
    destruct (calls_complete cs w init 3%Z Inv_init eq_refl Hcs) as [Hos [z G]].
    split; [exact Hos|]. split; [apply I|].
    exists z. split; [exact G|].
    pose proof (inv_gear _ I) as Ig. rewrite G in Ig. exact Ig.
  - intros q w'. rewrite !set_gear_unfold. split.
    + apply (update_float_gear w' _ (Qclip q 1 6)); [exact H|reflexivity].
    + match goal with |- context [_update_sensors w' ?c0] =>
        destruct (update_frame w' c0 H) as (_ & -> & _ & _)
      end. reflexivity.
Qed.

Lemma calls_with_integer_gear_complete_witness :
  Forall int_gear_call [SetThrottle (PyFloat 250.5); SetGear (PyInt (-4))] /\
  Forall (fun o => o = Ok tt)
    (outcomes_of
       (run_calls [SetThrottle (PyFloat 250.5); SetGear (PyInt (-4))] w0 init)).
Proof.
  assert (H : Forall int_gear_call
                [SetThrottle (PyFloat 250.5); SetGear (PyInt (-4))]).
  { repeat constructor. }
  split; [exact H|].
  exact (proj1 (proj1 (calls_with_integer_gear_complete
                         [SetThrottle (PyFloat 250.5); SetGear (PyInt (-4))] w0)
                      H)).
Defined.

(** C4 as stated fails: a float gear is not rejected by the clamp, and the
    gear-ratio lookup of the pass then raises [TypeError]. *)
Lemma set_gear_float_raises :
  result_of (set_gear (PyFloat 2.5) w0 init) = Raise TypeError.
Proof. reflexivity. Qed.

(** ** Reading the channels *)

Lemma read_run w s :
  SimulatedSensorMethods.read w s =
  (Ok (mkReading (name s)
         (round2
            (Qclip
               (value s +
                uniform_of (- noise_level s) (noise_level s)
                  (random_tape w (random_pos w)))
               (min_value s) (max_value s)))
         (match dict_get (name s) units with Some u => u | None => EmptyString end)
         (clock_tape w (clock_pos w))),
   mkWorld (random_tape w) (S (random_pos w)) (clock_tape w) (S (clock_pos w)),
   s).
Proof. reflexivity. Qed.

Lemma dict_update_same {V} k (v : V) d :
  dict_get k d = Some v -> dict_update k (fun _ => v) d = d.
Proof.
  induction d as [|[k' v'] d IH]; cbn [dict_get dict_update]; intros H.
  - reflexivity.
  - destruct (String.eqb k k').
    + now injection H as ->.
    + now rewrite IH.
Qed.

Lemma dict_get_In {V} k (v : V) d : dict_get k d = Some v -> In (k, v) d.
Proof.
  induction d as [|[k' v'] d IH]; cbn [dict_get]; intros H; [discriminate|].
  destruct (String.eqb_spec k k') as [->|_].
  - injection H as ->. now left.
  - right. now apply IH.
Qed.

Lemma read_each_frame ks : forall w c, self_of (read_each ks w c) = c.
Proof.
  induction ks as [|k ks IH]; intros w c; [reflexivity|].
  cbn [read_each]. unfold bind at 1. unfold gets at 1.
  destruct (dict_get k (sensors c)) as [s|] eqn:E; [|reflexivity].
  unfold bind at 1, call_on_sensor. rewrite read_run.
  rewrite (dict_update_same _ _ _ E).
  replace (mkCar (sensors c) (throttle c) (gear c) (mileage c)) with c
    by (now destruct c).
  unfold bind at 1.
  match goal with |- context [read_each ks ?w' c] =>
    specialize (IH w' c); destruct (read_each ks w' c) as [[[rs|e] w''] c'']
  end; exact IH.
Qed.

(** C9. [read()] leaves the sensor object as it was, and [read_all_sensors()]
    leaves the model as it was: every channel's stored value, bounds and noise
    level, the throttle, the gear and the mileage.  Only the outside world
    moves on: one random draw and one clock reading per channel read. *)
Theorem reads_leave_state_unchanged :
  (forall w s, self_of (SimulatedSensorMethods.read w s) = s) /\
  (forall w c, self_of (read_all_sensors w c) = c).
Proof.
  split.
  - intros w s. now rewrite read_run.
  - intros w c. unfold read_all_sensors, bind, gets. apply read_each_frame.
Qed.

Lemma Inv_channel_static c k s :
  Inv c -> dict_get k (sensors c) = Some s ->
  In (static s) (map (fun kv => static (snd kv)) (sensors init)).
Proof.
  intros I H. apply dict_get_In in H.
  apply (in_map (fun kv => (fst kv, static (snd kv)))) in H.
  fold (config c) in H. rewrite (inv_config c I) in H.
  apply (in_map snd) in H. unfold config in H. rewrite map_map in H. exact H.
Qed.

Lemma clipped_reading_between (a b : Z) x lo hi :
  lo = inject_Z a -> hi = inject_Z b -> (a <= b)%Z ->
  lo <= round2 (Qclip x lo hi) <= hi.
Proof.
  intros -> -> H. apply round2_between, Qclip_bounds.
  now rewrite <- Zle_Qle.
Qed.

(** ** Mileage *)

Lemma update_mileage w c :
  has_channels c ->
  mileage c <= mileage (self_of (_update_sensors w c)) /\
  (result_of (_update_sensors w c) = Ok tt ->
   0 < true_value "SPEED" (self_of (_update_sensors w c)) ->
   mileage c < mileage (self_of (_update_sensors w c))).
Proof.
  intros H.
  destruct (has_channels_shape c H)
    as (s0 & s1 & s2 & s3 & s4 & s5 & s6 & s7 & s8 & s9 & E).
  destruct c as [d thr g mil]. cbn [sensors] in E. subst d.
  rewrite update_sensors_run. cbn zeta.
  destruct (list_getitem gear_ratios g) as [r|e];
    unfold self_of, result_of; eval_channels.
  - destruct (Qlt_le_dec 0 _) as [Hpos|Hneg]; undiv; split; intros; lra.
  - split; [lra|discriminate].
Qed.

Lemma call_mileage cl w c :
  has_channels c ->
  mileage c <= mileage (self_of (do_call cl w c)) /\
  (result_of (do_call cl w c) = Ok tt ->
   0 < true_value "SPEED" (self_of (do_call cl w c)) ->
   mileage c < mileage (self_of (do_call cl w c))).
Proof.
  intros H. destruct cl as [t|g]; cbn [do_call];
    [rewrite set_throttle_unfold|rewrite set_gear_unfold];
    match goal with |- context [_update_sensors w ?c0] =>
      exact (update_mileage w c0 H)
    end.
Qed.

Lemma calls_mileage cs : forall w c,
  has_channels c -> mileage c <= mileage (after cs w c).
Proof.
  induction cs as [|cl cs IH]; intros w c H.
  - apply Qle_refl.
  - rewrite run_calls_cons.
    apply Qle_trans with (mileage (self_of (do_call cl w c))).
    + apply call_mileage, H.
    + apply IH, call_has_channels, H.
Qed.

(** C6. On a model with its ten channels, the mileage after any sequence of
    [set_throttle] and [set_gear] calls is at least the mileage before it,
    and a single call that completes its recomputation pass and leaves a
    stored speed above 0 leaves the mileage strictly larger. *)
Theorem mileage_never_decreases (c : VirtualCarSimulator) :
  has_channels c ->
  (forall cs w, mileage c <= mileage (after cs w c)) /\
  (forall cl w,
     result_of (do_call cl w c) = Ok tt ->
     0 < true_value "SPEED" (self_of (do_call cl w c)) ->
     mileage c < mileage (self_of (do_call cl w c))).
Proof.
  intros H. split.
  - intros cs w. now apply calls_mileage.
  - intros cl w. now apply call_mileage.
Qed.

Lemma mileage_never_decreases_witness :
  has_channels init /\
  mileage init <= mileage (after [SetGear (PyInt 5); SetThrottle (PyInt 50)] w0 init) /\
  mileage init < mileage (self_of (do_call (SetGear (PyInt 5)) w0 init)).
Proof.
  split; [reflexivity|].
  destruct (mileage_never_decreases init eq_refl) as [Hseq Hstep].
  split.
  - apply Hseq.
  - apply Hstep; [reflexivity|]. vm_compute. reflexivity.
Defined.

(** ** Determinism *)

Lemma dynamic_has_channels c1 c2 :
  dynamic c1 = dynamic c2 -> has_channels c1 -> has_channels c2.
Proof.
  unfold dynamic, has_channels. intros E H.
  injection E as E _ _ _. apply (f_equal (map fst)) in E.
  rewrite !map_map in E. cbn [fst] in E. rewrite <- H. symmetry. exact E.
Qed.

Lemma update_deterministic w1 w2 c1 c2 :
  has_channels c1 -> dynamic c1 = dynamic c2 ->
  result_of (_update_sensors w1 c1) = result_of (_update_sensors w2 c2) /\
  dynamic (self_of (_update_sensors w1 c1)) =
  dynamic (self_of (_update_sensors w2 c2)).
Proof.
  intros H1 E. pose proof (dynamic_has_channels _ _ E H1) as H2.
  destruct (has_channels_shape c1 H1)
    as (s0 & s1 & s2 & s3 & s4 & s5 & s6 & s7 & s8 & s9 & E1).
  destruct (has_channels_shape c2 H2)
    as (t0 & t1 & t2 & t3 & t4 & t5 & t6 & t7 & t8 & t9 & E2).
  destruct c1 as [d1 thr1 g1 mil1], c2 as [d2 thr2 g2 mil2].
  cbn [sensors] in E1, E2. subst d1 d2.
  unfold dynamic in E. eval_channels.
  injection E as V0 V1 V2 V3 V4 V5 V6 V7 V8 V9 -> -> ->.
  rewrite !update_sensors_run. cbn zeta.
  rewrite V0, V2, V8.
  destruct (list_getitem gear_ratios g2) as [r|e];
    unfold result_of, self_of, dynamic; eval_channels.
  - rewrite V4, V5, V6. split; reflexivity.
  - rewrite ?V1, ?V2, ?V3, ?V4, ?V5, ?V6, ?V7, ?V8, ?V9. split; reflexivity.
Qed.

Lemma call_deterministic cl w1 w2 c1 c2 :
  has_channels c1 -> dynamic c1 = dynamic c2 ->
  result_of (do_call cl w1 c1) = result_of (do_call cl w2 c2) /\
  dynamic (self_of (do_call cl w1 c1)) = dynamic (self_of (do_call cl w2 c2)).
Proof.
  intros H E. pose proof E as E'. unfold dynamic in E'.
  injection E' as Es Et Eg Em.
  destruct cl as [t|g]; cbn [do_call];
    [rewrite !set_throttle_unfold|rewrite !set_gear_unfold];
    apply update_deterministic; try exact H;
    unfold dynamic; cbn [sensors throttle gear mileage]; congruence.
Qed.

(** C7. Two models with the ten channels that agree on the stored value of
    every channel, the throttle, the gear and the mileage, and that receive
    the same sequence of calls, see the same outcome for every call and agree
    again on all of these afterwards, whatever the random source and the
    clock do on either side.  The bounds, names and noise levels of the
    channels play no part. *)
Theorem calls_are_deterministic (cs : list call) :
  forall (w1 w2 : World) (c1 c2 : VirtualCarSimulator),
    has_channels c1 -> dynamic c1 = dynamic c2 ->
    outcomes_of (run_calls cs w1 c1) = outcomes_of (run_calls cs w2 c2) /\
    dynamic (after cs w1 c1) = dynamic (after cs w2 c2).
Proof.
  induction cs as [|cl cs IH]; intros w1 w2 c1 c2 H E.
  - split; [reflexivity|exact E].
  - destruct (call_deterministic cl w1 w2 c1 c2 H E) as [Er Ed].
    rewrite !outcomes_cons, !run_calls_cons, Er.
    destruct (IH (world_of (do_call cl w1 c1)) (world_of (do_call cl w2 c2))
                (self_of (do_call cl w1 c1)) (self_of (do_call cl w2 c2))
                (call_has_channels cl w1 c1 H) Ed) as [Eo Ea].
    now rewrite Eo, Ea.
Qed.

Lemma calls_are_deterministic_witness :
  has_channels init /\ dynamic init = dynamic init_rebounded /\
  dynamic (after [SetGear (PyInt 5); SetThrottle (PyFloat 50)] w0 init) =
  dynamic (after [SetGear (PyInt 5); SetThrottle (PyFloat 50)] w1 init_rebounded).
Proof.
  split; [reflexivity|]. split; [reflexivity|].
  apply (calls_are_deterministic [SetGear (PyInt 5); SetThrottle (PyFloat 50)]
           w0 w1 init init_rebounded); reflexivity.
Defined.

(** ** Idling *)

Lemma geom_pos q n : 0 < q -> 0 < geom q n.
Proof.
  intros Hq. induction n as [|n IH]; cbn [geom]; [lra|].
  now apply Qmult_lt_0_compat.
Qed.

Lemma decay_pos n : 0 < decay n.
Proof. apply geom_pos. reflexivity. Qed.

Lemma decay_antitone n m : (n <= m)%nat -> decay m <= decay n.
Proof.
  induction 1 as [|m _ IH]; [apply Qle_refl|].
  change (decay (S m)) with ((9 # 10) * decay m).
  pose proof (decay_pos m). lra.
Qed.

Lemma decay_bernoulli n : decay n * (9 + inject_Z (Z.of_nat n)) <= 9.
Proof.
  induction n as [|n IH].
  - change (decay 0) with 1. cbn [Z.of_nat]. change (inject_Z 0) with 0. lra.
  - rewrite Nat2Z.inj_succ, <- Z.add_1_r, inject_Z_plus.
    change (inject_Z 1) with 1.
    change (decay (S n)) with ((9 # 10) * decay n).
    pose proof (decay_pos n) as P.
    assert (N : 0 <= inject_Z (Z.of_nat n)).
    { change 0 with (inject_Z 0). rewrite <- Zle_Qle. lia. }
    set (m := inject_Z (Z.of_nat n)) in *. set (d := decay n) in *.
    assert (0 <= d * m) by (apply Qmult_le_0_compat; lra).
    lra.
Qed.

Lemma rpm_after_idle_call w c :
  has_channels c ->
  true_value "RPM" (self_of (do_call (SetThrottle (PyInt 0)) w c)) - 800 ==
  (9 # 10) * (true_value "RPM" c - 800).
Proof.
  intros H. cbn [do_call]. rewrite set_throttle_unfold, rpm_after_update by exact H.
  cbn [throttle np_clip numQ sensors]. unfold true_value at 1 2. cbn [sensors].
  fold (true_value "RPM" c). change (inject_Z (Z.min (Z.max 0 0) 100)) with 0.
  lra.
Qed.

Lemma idle_rpm_succ n w c :
  has_channels c ->
  idle_rpm (S n) w c = idle_rpm n w (self_of (do_call (SetThrottle (PyInt 0)) w c)).
Proof.
  intros H. unfold idle_rpm, idle_calls. cbn [repeat].
  rewrite run_calls_cons, call_world by exact H. reflexivity.
Qed.

(** The stored RPM approaches 800 geometrically under idle calls. *)
Lemma idle_rpm_closed_form n : forall w c,
  has_channels c ->
  idle_rpm n w c - 800 == decay n * (true_value "RPM" c - 800).
Proof.
  induction n as [|n IH]; intros w c H.
  - unfold idle_rpm, idle_calls, after. cbn [repeat run_calls snd].
    change (decay 0) with 1. lra.
  - rewrite idle_rpm_succ by exact H.
    rewrite IH by (apply call_has_channels, H).
    rewrite rpm_after_idle_call by exact H.
    change (decay (S n)) with ((9 # 10) * decay n). lra.
Qed.

(** C8. On a model with its ten channels whose stored RPM is above 800,
    every further [set_throttle(0)] call lowers the stored RPM and keeps it
    above 800; the RPM is within one unit of 800 from [idle_steps] calls on, a
    number that depends on the starting RPM only, and from 83 calls on when
    the starting RPM is at most the channel's maximum of 7000. *)
Theorem idle_rpm_decays_to_800 (w : World) (c : VirtualCarSimulator) :
  has_channels c -> 800 < true_value "RPM" c ->
  (forall n, 800 < idle_rpm (S n) w c < idle_rpm n w c) /\
  (forall n, (idle_steps (true_value "RPM" c) <= n)%nat -> idle_rpm n w c - 800 < 1) /\
  (true_value "RPM" c <= 7000 ->
   forall n, (83 <= n)%nat -> idle_rpm n w c - 800 < 1).
Proof.
  intros H Hr.
  set (x := true_value "RPM" c - 800).
  assert (Hx : 0 < x) by (unfold x; lra).
  assert (Hcf : forall n, idle_rpm n w c - 800 == decay n * x)
    by (intros n; now apply idle_rpm_closed_form).
  split; [|split].
  - intros n. pose proof (Hcf n) as E0. pose proof (Hcf (S n)) as E1.
    change (decay (S n)) with ((9 # 10) * decay n) in E1.
    pose proof (decay_pos n) as P.
    assert (0 < decay n * x) by (apply Qmult_lt_0_compat; assumption).
    split; lra.
  - intros n Hn. rewrite Hcf.
    set (N := idle_steps (true_value "RPM" c)) in *.
    pose proof (decay_antitone N n Hn) as Ha.
    pose proof (decay_bernoulli N) as Hb.
    pose proof (decay_pos N) as P.
    pose proof (Qle_ceiling x) as Hc.
    assert (HN : inject_Z (Z.of_nat N) == 9 * inject_Z (Qceiling x)).
    { unfold N, idle_steps. fold x.
      assert (0 <= Qceiling x)%Z.
      { rewrite Zle_Qle. change (inject_Z 0) with 0. lra. }
      rewrite Z2Nat.id by lia. rewrite inject_Z_mult. reflexivity. }
    rewrite HN in Hb. set (C := inject_Z (Qceiling x)) in *.
    apply Qle_lt_trans with (decay N * x).
    + apply Qmult_le_compat_r; lra.
    + assert (decay N * x <= decay N * C) by (apply Qmult_le_l; assumption).
      lra.
  - intros Hmax n Hn. rewrite Hcf.
    pose proof (decay_antitone 83 n Hn) as Ha.
    pose proof (decay_pos n) as P.
    assert (H83 : decay 83 * 6200 < 1) by (vm_compute; reflexivity).
    assert (Hx2 : x <= 6200) by (unfold x; lra).
    apply Qle_lt_trans with (decay 83 * 6200); [|exact H83].
    apply Qle_trans with (decay n * 6200).
    + apply Qmult_le_l; assumption.
    + apply Qmult_le_compat_r; lra.
Qed.

Lemma idle_rpm_decays_to_800_witness :
  has_channels (after [SetThrottle (PyInt 100)] w0 init) /\
  800 < true_value "RPM" (after [SetThrottle (PyInt 100)] w0 init) /\
  800 < idle_rpm 1 w0 (after [SetThrottle (PyInt 100)] w0 init)
      < idle_rpm 0 w0 (after [SetThrottle (PyInt 100)] w0 init) /\
  idle_rpm (idle_steps (true_value "RPM" (after [SetThrottle (PyInt 100)] w0 init)))
    w0 (after [SetThrottle (PyInt 100)] w0 init) - 800 < 1 /\
  idle_rpm 83 w0 (after [SetThrottle (PyInt 100)] w0 init) - 800 < 1.
Proof.
  assert (H : has_channels (after [SetThrottle (PyInt 100)] w0 init))
    by reflexivity.
  assert (R : 800 < true_value "RPM" (after [SetThrottle (PyInt 100)] w0 init))
    by (vm_compute; reflexivity).
  split; [exact H|]. split; [exact R|].
  destruct (idle_rpm_decays_to_800 w0 _ H R) as (Hmono & Hsteps & H83).
  split; [apply Hmono|]. split; [apply Hsteps, le_n|].
  apply H83; [|apply le_n].
  vm_compute. discriminate.
Defined.

(** ** Stored values under sustained full throttle *)

Lemma after_app cs1 : forall cs2 w c,
  has_channels c -> after (cs1 ++ cs2)%list w c = after cs2 w (after cs1 w c).
Proof.
  induction cs1 as [|cl cs1 IH]; intros cs2 w c H; [reflexivity|].
  cbn [app]. rewrite !run_calls_cons, call_world by exact H.
  apply IH, call_has_channels, H.
Qed.

(** One completed tick at full throttle: the coolant closes a tenth of its
    distance to 136.6 at least, and, once the coolant is at 130, the oil
    closes a twentieth of its distance to 130 at least. *)
Lemma full_throttle_step w c z :
  Inv c -> gear c = PyInt z ->
  136.6 - true_value "COOLANT_TEMP" (self_of (do_call (SetThrottle (PyInt 100)) w c))
    <= (9 # 10) * (136.6 - true_value "COOLANT_TEMP" c) /\
  (130 <= true_value "COOLANT_TEMP" c ->
   130 - true_value "OIL_TEMP" (self_of (do_call (SetThrottle (PyInt 100)) w c))
     <= (95 # 100) * (130 - true_value "OIL_TEMP" c)).
Proof.
  intros I G.
  destruct (has_channels_shape c (config_has_channels c (inv_config c I)))
    as (s0 & s1 & s2 & s3 & s4 & s5 & s6 & s7 & s8 & s9 & E).
  pose proof (inv_gear c I) as Ig. pose proof (inv_rpm c I) as [Ir1 Ir2].
  destruct c as [d thr g mil]. cbn [sensors gear] in *. subst d g.
  cbn [do_call]. rewrite set_throttle_unfold. cbn [sensors gear mileage].
  rewrite update_sensors_run. cbn zeta.
  destruct (gear_ratio_lookup _ Ig) as [(r & -> & _)|[_ [q Hq]]];
    [|discriminate Hq].
  unfold self_of. eval_channels. cbn [np_clip numQ].
  change (inject_Z (Z.min (Z.max 100 0) 100)) with 100. undiv.
  split; [|intros Hc]; lra.
Qed.

Lemma full_throttle_coolant n : forall w c z,
  Inv c -> gear c = PyInt z ->
  136.6 - true_value "COOLANT_TEMP" (after (full_throttle_calls n) w c)
    <= decay n * (136.6 - true_value "COOLANT_TEMP" c).
Proof.
  induction n as [|n IH]; intros w c z I G.
  - change (decay 0) with 1. unfold full_throttle_calls, after.
    cbn [repeat run_calls snd]. lra.
  - unfold full_throttle_calls. cbn [repeat]. rewrite run_calls_cons.
    fold (full_throttle_calls n).
    destruct (call_completes (SetThrottle (PyInt 100)) w c z I G Logic.I)
      as [_ [z' G']].
    pose proof (Inv_call (SetThrottle (PyInt 100)) w c I) as I'.
    pose proof (IH (world_of (do_call (SetThrottle (PyInt 100)) w c)) _ z' I' G')
      as Hn.
    destruct (full_throttle_step w c z I G) as [Hs _].
    pose proof (decay_pos n) as P.
    change (decay (S n)) with ((9 # 10) * decay n).
    set (a := 136.6 - true_value "COOLANT_TEMP"
                        (self_of (do_call (SetThrottle (PyInt 100)) w c))) in *.
    set (b := 136.6 - true_value "COOLANT_TEMP" c) in *.
    assert (decay n * a <= decay n * ((9 # 10) * b))
      by (apply Qmult_le_l; assumption).
    lra.
Qed.

Lemma full_throttle_oil n : forall w c z,
  Inv c -> gear c = PyInt z -> 130 <= true_value "COOLANT_TEMP" c ->
  130 - true_value "OIL_TEMP" (after (full_throttle_calls n) w c)
    <= geom (95 # 100) n * (130 - true_value "OIL_TEMP" c).
Proof.
  induction n as [|n IH]; intros w c z I G Hc.
  - unfold full_throttle_calls, after. cbn [repeat run_calls snd geom]. lra.
  - unfold full_throttle_calls. cbn [repeat]. rewrite run_calls_cons.
    fold (full_throttle_calls n).
    destruct (call_completes (SetThrottle (PyInt 100)) w c z I G Logic.I)
      as [_ [z' G']].
    pose proof (Inv_call (SetThrottle (PyInt 100)) w c I) as I'.
    destruct (full_throttle_step w c z I G) as [Hs Ho].
    specialize (Ho Hc).
    assert (Hc' : 130 <= true_value "COOLANT_TEMP"
                          (self_of (do_call (SetThrottle (PyInt 100)) w c)))
      by lra.
    pose proof (IH (world_of (do_call (SetThrottle (PyInt 100)) w c)) _ z' I' G' Hc')
      as Hn.
    assert (P : 0 < geom (95 # 100) n) by (apply geom_pos; reflexivity).
    cbn [geom].
    set (a := 130 - true_value "OIL_TEMP"
                      (self_of (do_call (SetThrottle (PyInt 100)) w c))) in *.
    set (b := 130 - true_value "OIL_TEMP" c) in *.
    assert (geom (95 # 100) n * a <= geom (95 # 100) n * ((95 # 100) * b))
      by (apply Qmult_le_l; assumption).
    lra.
Qed.

Lemma within_bounds_max c :
  Inv c ->
  (channel_holds within_bounds "SPEED" c -> true_value "SPEED" c <= 200) /\
  (channel_holds within_bounds "COOLANT_TEMP" c ->
   true_value "COOLANT_TEMP" c <= 120) /\
  (channel_holds within_bounds "OIL_TEMP" c -> true_value "OIL_TEMP" c <= 120).
Proof.
  intros I.
  destruct (Inv_channel_bounds _ I)
    as (s0 & s1 & s2 & s3 & s4 & s5 & s6 & s7 & s8 & s9 & E & St).
  unfold channel_holds, within_bounds, true_value. rewrite E.
  cbn [sensors init map snd static channel_dict dict_get String.eqb Ascii.eqb
       Bool.eqb name min_value max_value noise_level] in *.
  unfold static in St.
  injection St as _ _ _ _ _ _ U1 _ _ _ U2 _ _ _ _ _ _ _ _ _ _ _ _ _ _ _ _ _
    _ _ _ _ _ _ U8 _ _ _ _ _.
  rewrite U1, U2, U8. repeat split; intros [_ Hle]; exact Hle.
Qed.

(** C1 as stated fails, with in-range inputs only.  Engaging first gear and
    then holding full throttle takes the stored speed above the SPEED
    channel's [max_value] of 200 on the eighth throttle call.  Holding full
    throttle from the fresh model takes the stored coolant temperature above
    its [max_value] of 120 within 11 calls and the stored oil temperature
    above its [max_value] of 120 within 52 calls. *)
Lemma stored_values_exceed_max :
  ~ channel_holds within_bounds "SPEED"
      (after (SetGear (PyInt 1) :: full_throttle_calls 8) w0 init) /\
  ~ channel_holds within_bounds "COOLANT_TEMP"
      (after (full_throttle_calls 11) w0 init) /\
  ~ channel_holds within_bounds "OIL_TEMP"
      (after (full_throttle_calls 52) w0 init).
Proof.
  split; [|split]; intros B.
  - assert (F : Qle_bool
                  (true_value "SPEED"
                     (after (SetGear (PyInt 1) :: full_throttle_calls 8) w0 init))
                  200 = false)
      by (lazy; reflexivity).
    apply (proj1 (within_bounds_max _ (Inv_after _ w0 init Inv_init))) in B.
    apply Qle_bool_iff in B. congruence.
  - apply (proj1 (proj2 (within_bounds_max _ (Inv_after _ w0 init Inv_init))))
      in B.
    pose proof (full_throttle_coolant 11 w0 init 3 Inv_init eq_refl) as L.
    change (true_value "COOLANT_TEMP" init) with 85 in L.
    assert (D : decay 11 * (136.6 - 85) < 16.6) by (vm_compute; reflexivity).
    lra.
  - apply (proj2 (proj2 (within_bounds_max _ (Inv_after _ w0 init Inv_init))))
      in B.
    change (full_throttle_calls 52)
      with (full_throttle_calls 20 ++ full_throttle_calls 32)%list in B.
    rewrite after_app in B by reflexivity.
    set (c := after (full_throttle_calls 20) w0 init) in *.
    assert (I : Inv c) by apply Inv_after, Inv_init.
    assert (G : exists z, gear c = PyInt z).
    { apply (calls_complete (full_throttle_calls 20) w0 init 3 Inv_init eq_refl).
      unfold full_throttle_calls. apply Forall_forall.
      intros cl Hin. apply repeat_spec in Hin. now subst cl. }
    destruct G as [z G].
    assert (Hc : 130 <= true_value "COOLANT_TEMP" c).
    { pose proof (full_throttle_coolant 20 w0 init 3 Inv_init eq_refl) as L.
      change (true_value "COOLANT_TEMP" init) with 85 in L. fold c in L.
      assert (D : decay 20 * (136.6 - 85) < 6.6) by (vm_compute; reflexivity).
      lra. }
    pose proof (full_throttle_oil 32 w0 c z I G Hc) as L.
    pose proof (inv_oil c I) as [Ho _].
    assert (P : 0 < geom (95 # 100) 32) by (apply geom_pos; reflexivity).
    assert (D : geom (95 # 100) 32 * 50 < 10) by (vm_compute; reflexivity).
    assert (geom (95 # 100) 32 * (130 - true_value "OIL_TEMP" c)
            <= geom (95 # 100) 32 * 50)
      by (apply Qmult_le_l; [exact P|lra]).
    lra.
Qed.

(** * Further properties of the code *)

(** ** Snapshots *)

Lemma advance_0 w : advance 0 w = w.
Proof. now destruct w. Qed.

Lemma advance_advance n m w : advance n (advance m w) = advance (n + m) w.
Proof.
  unfold advance. cbn [random_tape random_pos clock_tape clock_pos].
  now rewrite !Nat.add_assoc.
Qed.

Lemma dict_get_key {V} k (d : dict V) : In k (map fst d) -> dict_get k d <> None.
Proof.
  induction d as [|[k' v] d IH]; cbn [map fst In dict_get]; [tauto|].
  intros [->|H].
  - now rewrite String.eqb_refl.
  - destruct (String.eqb k k'); [discriminate|now apply IH].
Qed.

Lemma read_each_run ks : forall w c,
  (forall k, In k ks -> dict_get k (sensors c) <> None) ->
  exists rs,
    read_each ks w c = (Ok rs, advance (List.length ks) w, c) /\
    map fst rs = ks /\
    forall i k rd,
      nth_error rs i = Some (k, rd) ->
      exists s, dict_get k (sensors c) = Some s /\
                result_of (SimulatedSensorMethods.read (advance i w) s) = Ok rd.
Proof.
  induction ks as [|k ks IH]; intros w c Hk.
  - exists []. cbn [read_each List.length]. rewrite advance_0.
    split; [reflexivity|]. split; [reflexivity|].
    intros [|i] k rd H; discriminate H.
  - cbn [read_each]. unfold bind at 1. unfold gets at 1.
    destruct (dict_get k (sensors c)) as [s|] eqn:E;
      [|now destruct (Hk k (or_introl eq_refl))].
    unfold bind at 1, call_on_sensor. rewrite read_run.
    rewrite (dict_update_same _ _ _ E).
    replace (mkCar (sensors c) (throttle c) (gear c) (mileage c)) with c
      by (now destruct c).
    change (mkWorld (random_tape w) (S (random_pos w)) (clock_tape w)
              (S (clock_pos w))) with (advance 1 w).
    destruct (IH (advance 1 w) c (fun k' H => Hk k' (or_intror H)))
      as (rs & Hrun & Hkeys & Hrd).
    unfold bind at 1. rewrite Hrun. unfold ret.
    rewrite advance_advance, Nat.add_1_r.
    eexists. split; [reflexivity|]. split; [cbn [map fst]; now rewrite Hkeys|].
    intros [|i] k' rd H; cbn [nth_error] in H.
    + injection H as <- <-. exists s. split; [exact E|].
      now rewrite advance_0, read_run.
    + destruct (Hrd i k' rd H) as (s' & Hs' & Hr).
      exists s'. split; [exact Hs'|].
      rewrite advance_advance, Nat.add_1_r in Hr. exact Hr.
Qed.

(** X1. On any model, [read_all_sensors()] does not raise and returns one
    reading per channel, keyed and ordered as [self.sensors]; the reading at
    position [i] is what [read()] returns on the channel of that key after
    [i] earlier reads.  The call leaves the model as it was and consumes
    exactly one random draw and one clock reading per channel. *)
Theorem read_all_sensors_snapshot (w : World) (c : VirtualCarSimulator) :
  exists rs,
    read_all_sensors w c = (Ok rs, advance (List.length (sensors c)) w, c) /\
    map fst rs = map fst (sensors c) /\
    forall i k rd,
      nth_error rs i = Some (k, rd) ->
      exists s, dict_get k (sensors c) = Some s /\
                result_of (SimulatedSensorMethods.read (advance i w) s) = Ok rd.
Proof.
  unfold read_all_sensors, bind, gets.
  destruct (read_each_run (map fst (sensors c)) w c (fun k => dict_get_key k _))
    as (rs & Hrun & Hkeys & Hrd).
  exists rs. rewrite Hrun, length_map. repeat split; assumption.
Qed.

Lemma read_all_sensors_snapshot_witness :
  exists rs k rd,
    read_all_sensors w0 init = (Ok rs, advance 10 w0, init) /\
    nth_error rs 1 = Some (k, rd) /\
    exists s, dict_get k (sensors init) = Some s /\
              result_of (SimulatedSensorMethods.read (advance 1 w0) s) = Ok rd.
Proof.
  destruct (read_all_sensors_snapshot w0 init) as (rs & Hrun & Hkeys & Hrd).
  destruct rs as [|[k0 r0] [|[k1 r1] rs]]; try discriminate Hkeys.
  exists ((k0, r0) :: (k1, r1) :: rs), k1, r1.
  split; [exact Hrun|]. split; [reflexivity|].
  exact (Hrd 1%nat k1 r1 eq_refl).
Defined.

Lemma Inv_reading_between c k s w rd :
  Inv c -> dict_get k (sensors c) = Some s ->
  result_of (SimulatedSensorMethods.read w s) = Ok rd ->
  min_value s <= reading_value rd <= max_value s.
Proof.
  intros I H Hrd. rewrite read_run in Hrd. injection Hrd as <-.
  cbn [reading_value].
  pose proof (Inv_channel_static _ k s I H) as St.
  cbn in St. unfold static in St.
  repeat (destruct St as [St|St];
          [injection St as _ L U _;
           eapply clipped_reading_between; [symmetry; exact L|symmetry; exact U|lia]|]).
  contradiction.
Qed.

(** X2. On a model reached from the freshly constructed one, every reading of
    the snapshot returned by [read_all_sensors()] lies within the bounds of
    the channel it is filed under, whatever the random source does. *)
Theorem snapshot_within_bounds (cs : list call) (w w' : World) :
  exists rs,
    result_of (read_all_sensors w' (after cs w init)) = Ok rs /\
    forall k rd,
      In (k, rd) rs ->
      channel_holds (fun s => min_value s <= reading_value rd <= max_value s)
        k (after cs w init).
Proof.
  set (c := after cs w init).
  assert (I : Inv c) by apply Inv_after, Inv_init.
  unfold read_all_sensors, bind, gets.
  destruct (read_each_run (map fst (sensors c)) w' c (fun k => dict_get_key k _))
    as (rs & Hrun & _ & Hrd).
  exists rs. rewrite Hrun. split; [reflexivity|].
  intros k rd Hin. apply In_nth_error in Hin. destruct Hin as [i Hi].
  destruct (Hrd i k rd Hi) as (s & Hs & Hr).
  unfold channel_holds. rewrite Hs.
  exact (Inv_reading_between c k s _ rd I Hs Hr).
Qed.

Lemma snapshot_within_bounds_witness :
  exists rs rd,
    result_of (read_all_sensors w1 (after [SetThrottle (PyInt 70)] w0 init)) = Ok rs /\
    In ("RPM", rd) rs /\
    channel_holds (fun s => min_value s <= reading_value rd <= max_value s)
      "RPM" (after [SetThrottle (PyInt 70)] w0 init).
Proof.
  destruct (snapshot_within_bounds [SetThrottle (PyInt 70)] w0 w1)
    as (rs & Hrs & Hb).
  assert (Hk : exists rd, In ("RPM", rd) rs).
  { revert Hrs. vm_compute. intros Hrs. injection Hrs as <-.
    eexists. left. reflexivity. }
  destruct Hk as [rd Hin].
  exists rs, rd. split; [exact Hrs|]. split; [exact Hin|exact (Hb _ _ Hin)].
Defined.

(** ** Accuracy of a reading *)

Lemma round_half_even_error x :
  - (1 # 2) <= inject_Z (round_half_even x) - x <= 1 # 2.
Proof.
  pose proof (Qfloor_le x) as Hlo. pose proof (Qlt_floor x) as Hhi.
  rewrite inject_Z_plus in Hhi. change (inject_Z 1) with 1 in Hhi.
  unfold round_half_even.
  destruct (Qcompare (x - inject_Z (Qfloor x)) (1 # 2)) eqn:E.
  - apply Qeq_alt in E.
    destruct (Z.even (Qfloor x));
      rewrite ?inject_Z_plus; change (inject_Z 1) with 1; split; lra.
  - apply Qlt_alt in E. split; lra.
  - apply Qgt_alt in E. rewrite inject_Z_plus. change (inject_Z 1) with 1.
    split; lra.
Qed.

Lemma round2_error x : - (1 # 200) <= round2 x - x <= 1 # 200.
Proof.
  pose proof (round_half_even_error (x * 100)) as [H1 H2].
  unfold round2. set (r := inject_Z (round_half_even (x * 100))) in *.
  undiv. split; lra.
Qed.

Lemma Qclip_near v n e lo hi :
  lo <= v <= hi -> - e <= n <= e ->
  v - e <= Qclip (v + n) lo hi <= v + e.
Proof.
  intros [Hl Hh] [Hn1 Hn2]. unfold Qclip.
  destruct (Q.min_spec (Qmax (v + n) lo) hi) as [[L E]|[L E]];
  destruct (Q.max_spec (v + n) lo) as [[L' F]|[L' F]];
  rewrite E; rewrite ?F; rewrite ?F in L; split; lra.
Qed.

Lemma uniform_of_between nl u :
  0 <= nl -> 0 <= u <= 1 -> - nl <= uniform_of (- nl) nl u <= nl.
Proof.
  intros Hn [Hu0 Hu1]. unfold uniform_of.
  assert (A : 0 <= nl * u) by (apply Qmult_le_0_compat; assumption).
  assert (B : 0 <= nl * (1 - u)) by (apply Qmult_le_0_compat; lra).
  split; lra.
Qed.

(** X3. When the stored value of a sensor lies within its bounds, its noise
    level is not negative and the draw of [random()] lies in [0, 1], the value
    returned by [read()] differs from the stored value by at most the noise
    level plus half a hundredth, the error of the rounding. *)
Theorem reading_accuracy (w : World) (s : SimulatedSensor) :
  min_value s <= value s <= max_value s ->
  0 <= noise_level s ->
  0 <= random_tape w (random_pos w) <= 1 ->
  exists rd,
    result_of (SimulatedSensorMethods.read w s) = Ok rd /\
    value s - noise_level s - (1 # 200) <= reading_value rd
      <= value s + noise_level s + (1 # 200).
Proof.
  intros Hb Hn Hu. rewrite read_run. eexists. split; [reflexivity|].
  cbn [reading_value].
  pose proof (uniform_of_between _ _ Hn Hu) as Hnoise.
  pose proof (Qclip_near (value s) _ (noise_level s) _ _ Hb Hnoise) as [C1 C2].
  set (x := Qclip _ _ _) in *.
  pose proof (round2_error x) as [R1 R2]. split; lra.
Qed.

Lemma reading_accuracy_witness :
  exists rd,
    result_of (SimulatedSensorMethods.read w0 (mkSensor "OIL_TEMP" 80.4 60 120 1))
    = Ok rd /\
    80.4 - 1 - (1 # 200) <= reading_value rd <= 80.4 + 1 + (1 # 200).
Proof.
  apply (reading_accuracy w0 (mkSensor "OIL_TEMP" 80.4 60 120 1));
    cbn [value min_value max_value noise_level w0 random_tape random_pos];
    try split; lra.
Defined.

(** X4. For a sensor with integer bounds, as all ten channels of the model
    have, a stored value at least one noise level above the maximum reads as
    exactly the maximum, and one at least a noise level below the minimum
    reads as exactly the minimum: what a stored value exceeds its bounds by is
    invisible to the reader. *)
Theorem reading_saturates (w : World) (s : SimulatedSensor) (a b : Z) :
  min_value s = inject_Z a -> max_value s = inject_Z b -> (a <= b)%Z ->
  0 <= noise_level s ->
  0 <= random_tape w (random_pos w) <= 1 ->
  exists rd,
    result_of (SimulatedSensorMethods.read w s) = Ok rd /\
    (max_value s + noise_level s <= value s -> reading_value rd == max_value s) /\
    (value s + noise_level s <= min_value s -> reading_value rd == min_value s).
Proof.
  intros La Ub Hab Hn Hu. rewrite read_run. eexists. split; [reflexivity|].
  cbn [reading_value].
  pose proof (uniform_of_between _ _ Hn Hu) as [N1 N2].
  set (noise := uniform_of _ _ _) in *.
  assert (Hab' : inject_Z a <= inject_Z b) by now rewrite <- Zle_Qle.
  rewrite La, Ub.
  split; intros Hv; rewrite ?La, ?Ub in Hv.
  - assert (Hx : inject_Z b <= Qclip (value s + noise) (inject_Z a) (inject_Z b)
                 <= inject_Z b).
    { pose proof (Qclip_bounds (value s + noise) _ _ Hab') as [_ C2].
      split; [|exact C2]. unfold Qclip.
      apply Q.min_glb; [|apply Qle_refl].
      apply Qle_trans with (value s + noise); [lra|apply Q.le_max_l]. }
    apply round2_between in Hx. destruct Hx. apply Qle_antisym; assumption.
  - assert (Hx : inject_Z a <= Qclip (value s + noise) (inject_Z a) (inject_Z b)
                 <= inject_Z a).
    { pose proof (Qclip_bounds (value s + noise) _ _ Hab') as [C1 _].
      split; [exact C1|]. unfold Qclip.
      apply Qle_trans with (Qmax (value s + noise) (inject_Z a));
        [apply Q.le_min_l|].
      apply Q.max_lub; [lra|apply Qle_refl]. }
    apply round2_between in Hx. destruct Hx. apply Qle_antisym; assumption.
Qed.

Lemma reading_saturates_witness :
  exists rd,
    result_of (SimulatedSensorMethods.read w0 (mkSensor "SPEED" 338 0 200 2)) = Ok rd /\
    reading_value rd == 200.
Proof.
  destruct (reading_saturates w0 (mkSensor "SPEED" 338 0 200 2) 0 200)
    as (rd & Hrd & Hmax & _);
    cbn [value min_value max_value noise_level w0 random_tape random_pos];
    try reflexivity; try lia; try (split; lra); try lra.
  exists rd. split; [exact Hrd|]. apply Hmax.
  cbn [value min_value max_value noise_level]. lra.
Defined.

(** ** The control inputs *)

Lemma np_clip_cases x lo hi :
  (lo <= hi)%Z ->
  (inject_Z lo <= numQ x <= inject_Z hi -> numQ (np_clip x lo hi) == numQ x) /\
  (numQ x <= inject_Z lo -> numQ (np_clip x lo hi) == inject_Z lo) /\
  (inject_Z hi <= numQ x -> numQ (np_clip x lo hi) == inject_Z hi).
Proof.
  intros H. assert (H' : inject_Z lo <= inject_Z hi) by now rewrite <- Zle_Qle.
  destruct x as [z|q]; cbn [np_clip numQ].
  - repeat split; intros Hx; rewrite <- ?Zle_Qle in Hx;
      apply inject_Z_injective; lia.
  - unfold Qclip. repeat split; intros Hx;
      destruct (Q.min_spec (Qmax q (inject_Z lo)) (inject_Z hi)) as [[L E]|[L E]];
      destruct (Q.max_spec q (inject_Z lo)) as [[L' F]|[L' F]];
      rewrite E; rewrite ?F; rewrite ?F in L; lra.
Qed.

(** X5. On a model with its ten channels, [set_throttle(t)] stores the
    throttle clamped to [0, 100], of the kind (integer or float) of [t]:
    [t] itself when it is in range, 0 when it is below and 100 when it is
    above.  The stored gear is not touched.  This holds whether the
    recomputation pass that follows completes or raises. *)
Theorem set_throttle_clamps (w : World) (c : VirtualCarSimulator) (t : num) :
  has_channels c ->
  throttle (self_of (set_throttle t w c)) = np_clip t 0 100 /\
  0 <= throttle (self_of (set_throttle t w c)) <= 100 /\
  (0 <= t <= 100 -> throttle (self_of (set_throttle t w c)) == t) /\
  (t <= 0 -> throttle (self_of (set_throttle t w c)) == 0) /\
  (100 <= t -> throttle (self_of (set_throttle t w c)) == 100) /\
  gear (self_of (set_throttle t w c)) = gear c.
Proof.
  intros H. rewrite set_throttle_unfold.
  match goal with |- context [_update_sensors w ?c0] =>
    destruct (update_frame w c0 H) as (-> & -> & _ & _)
  end.
  cbn [throttle gear].
  destruct (np_clip_cases t 0 100 ltac:(lia)) as (Hin & Hlo & Hhi).
  split; [reflexivity|]. split; [apply (np_clip_bounds t 0 100); lia|].
  repeat split; assumption.
Qed.

Lemma set_throttle_clamps_witness :
  has_channels init /\ (100 <= PyFloat 250.5) /\
  throttle (self_of (set_throttle (PyFloat 250.5) w0 init)) == 100.
Proof.
  split; [reflexivity|]. split; [cbn [numQ]; lra|].
  apply (set_throttle_clamps w0 init (PyFloat 250.5) eq_refl).
  cbn [numQ]. lra.
Defined.

Lemma rpm_after_call cl w c :
  has_channels c ->
  true_value "RPM" (self_of (do_call cl w c)) =
  true_value "RPM" c +
  (800 + throttle (self_of (do_call cl w c)) * 50 - true_value "RPM" c) * 0.1.
Proof.
  intros H. destruct cl as [t|g]; cbn [do_call];
    [rewrite set_throttle_unfold|rewrite set_gear_unfold];
    match goal with |- context [_update_sensors w ?c0] =>
      destruct (update_frame w c0 H) as (-> & _ & _ & _);
      rewrite (rpm_after_update w c0 H)
    end; reflexivity.
Qed.

Lemma hold_throttle_closed_form t n : forall w c,
  has_channels c ->
  true_value "RPM" (after (repeat (SetThrottle t) n) w c) - target_rpm_of t ==
  decay n * (true_value "RPM" c - target_rpm_of t).
Proof.
  induction n as [|n IH]; intros w c H.
  - unfold after. cbn [repeat run_calls snd]. change (decay 0) with 1. lra.
  - cbn [repeat]. rewrite run_calls_cons, call_world by exact H.
    rewrite IH by (apply call_has_channels, H).
    rewrite rpm_after_call by exact H.
    cbn [do_call]. rewrite set_throttle_unfold.
    match goal with |- context [_update_sensors w ?c0] =>
      destruct (update_frame w c0 H) as (-> & _ & _ & _)
    end.
    cbn [throttle]. unfold target_rpm_of.
    change (decay (S n)) with ((9 # 10) * decay n). lra.
Qed.

(** X6. On a model with its ten channels, holding any throttle input [t] for
    [n] calls leaves the stored RPM at a distance from the target
    800 + 50 * clamp(t, 0, 100) that is 0.9 ^ n times the distance it started
    at, whether the passes complete or raise.  The gear has no part in it: a
    [set_gear] call moves the RPM a tenth of the way to the target of the
    stored throttle, whatever the gear. *)
Theorem rpm_approaches_target (w : World) (c : VirtualCarSimulator) :
  has_channels c ->
  (forall t n,
     true_value "RPM" (after (repeat (SetThrottle t) n) w c) - target_rpm_of t ==
     decay n * (true_value "RPM" c - target_rpm_of t)) /\
  (forall g,
     true_value "RPM" (self_of (set_gear g w c)) - (800 + throttle c * 50) ==
     (9 # 10) * (true_value "RPM" c - (800 + throttle c * 50))).
Proof.
  intros H. split.
  - intros t n. now apply hold_throttle_closed_form.
  - intros g. change (set_gear g w c) with (do_call (SetGear g) w c).
    rewrite (rpm_after_call (SetGear g) w c H).
    cbn [do_call]. rewrite set_gear_unfold.
    match goal with |- context [_update_sensors w ?c0] =>
      destruct (update_frame w c0 H) as (-> & _ & _ & _)
    end.
    cbn [throttle]. lra.
Qed.

Lemma rpm_approaches_target_witness :
  has_channels init /\
  true_value "RPM" (after (repeat (SetThrottle (PyInt 40)) 30) w0 init)
    - target_rpm_of (PyInt 40)
  == decay 30 * (true_value "RPM" init - target_rpm_of (PyInt 40)).
Proof.
  split; [reflexivity|].
  exact (proj1 (rpm_approaches_target w0 init eq_refl) (PyInt 40) 30%nat).
Defined.

(** ** Channels that the pass never writes *)

Lemma update_keeps_unwritten w c k :
  has_channels c ->
  In k ["THROTTLE_POS"; "INTAKE_TEMP"; "MAF"] ->
  dict_get k (sensors (self_of (_update_sensors w c))) = dict_get k (sensors c).
Proof.
  intros H Hk.
  destruct (has_channels_shape c H)
    as (s0 & s1 & s2 & s3 & s4 & s5 & s6 & s7 & s8 & s9 & E).
  destruct c as [d thr g mil]. cbn [sensors] in E. subst d.
  rewrite update_sensors_run. cbn zeta.
  destruct Hk as [<-|[<-|[<-|[]]]];
    destruct (list_getitem gear_ratios g); reflexivity.
Qed.

Lemma calls_keep_unwritten cs k : forall w c,
  has_channels c ->
  In k ["THROTTLE_POS"; "INTAKE_TEMP"; "MAF"] ->
  dict_get k (sensors (after cs w c)) = dict_get k (sensors c).
Proof.
  induction cs as [|cl cs IH]; intros w c H Hk; [reflexivity|].
  rewrite run_calls_cons, IH by (try apply call_has_channels; assumption).
  destruct cl as [t|g]; cbn [do_call];
    [rewrite set_throttle_unfold|rewrite set_gear_unfold];
    now rewrite update_keeps_unwritten.
Qed.

(** X7. On a model with its ten channels, no sequence of [set_throttle] and
    [set_gear] calls changes the THROTTLE_POS, INTAKE_TEMP or MAF sensor:
    from the freshly constructed model their stored values stay 15, 25 and 5,
    so the THROTTLE_POS channel does not follow the throttle input. *)
Theorem unwritten_channels_never_change (cs : list call) (w : World) :
  (forall c k,
     has_channels c -> In k ["THROTTLE_POS"; "INTAKE_TEMP"; "MAF"] ->
     dict_get k (sensors (after cs w c)) = dict_get k (sensors c)) /\
  true_value "THROTTLE_POS" (after cs w init) = 15 /\
  true_value "INTAKE_TEMP" (after cs w init) = 25 /\
  true_value "MAF" (after cs w init) = 5.
Proof.
  split; [intros c k H Hk; now apply calls_keep_unwritten|].
  unfold true_value.
  rewrite !(calls_keep_unwritten cs _ w init eq_refl) by (cbn; tauto).
  repeat split.
Qed.

Lemma unwritten_channels_never_change_witness :
  has_channels init /\
  dict_get "THROTTLE_POS"
    (sensors (after [SetThrottle (PyInt 100); SetGear (PyInt 2)] w0 init)) =
  Some (mkSensor "THROTTLE_POS" 15 0 100 1).
Proof.
  split; [reflexivity|].
  rewrite (proj1 (unwritten_channels_never_change
                    [SetThrottle (PyInt 100); SetGear (PyInt 2)] w0)
             init "THROTTLE_POS" eq_refl (or_introl eq_refl)).
  reflexivity.
Defined.

(** ** Consistency of the channels after a completed pass *)

(** X8. On a model with its ten channels, after a call that completes, the
    stored values are consistent with each other: the speed is the RPM times
    the ratio of the stored gear over 60, the engine load is 0.7 times the
    stored throttle, the fuel rate is throttle / 100 * 12 + RPM / 1000 * 0.8
    and the oil pressure is the base pressure of the RPM times the clamped
    temperature factor of the stored oil temperature. *)
Theorem completed_pass_couples_channels
  (cl : call) (w : World) (c : VirtualCarSimulator) :
  has_channels c ->
  result_of (do_call cl w c) = Ok tt ->
  let c' := self_of (do_call cl w c) in
  exists ratio,
    list_getitem gear_ratios (gear c') = Ok ratio /\
    true_value "SPEED" c' = true_value "RPM" c' * ratio / 60 /\
    true_value "ENGINE_LOAD" c' = throttle c' * 0.7 /\
    true_value "FUEL_RATE" c' =
      throttle c' / 100 * 12 + true_value "RPM" c' / 1000 * 0.8 /\
    true_value "OIL_PRESSURE" c' =
      (true_value "RPM" c' / 1000 * 8 + 20) *
      Qclip (1.0 - (true_value "OIL_TEMP" c' - 80) / 200) 0.5 1.5.
Proof.
  intros H.
  assert (U : forall c0, has_channels c0 ->
            result_of (_update_sensors w c0) = Ok tt ->
            let c' := self_of (_update_sensors w c0) in
            exists ratio,
              list_getitem gear_ratios (gear c') = Ok ratio /\
              true_value "SPEED" c' = true_value "RPM" c' * ratio / 60 /\
              true_value "ENGINE_LOAD" c' = throttle c' * 0.7 /\
              true_value "FUEL_RATE" c' =
                throttle c' / 100 * 12 + true_value "RPM" c' / 1000 * 0.8 /\
              true_value "OIL_PRESSURE" c' =
                (true_value "RPM" c' / 1000 * 8 + 20) *
                Qclip (1.0 - (true_value "OIL_TEMP" c' - 80) / 200) 0.5 1.5).
  { intros c0 H0.
    destruct (has_channels_shape c0 H0)
      as (s0 & s1 & s2 & s3 & s4 & s5 & s6 & s7 & s8 & s9 & E).
    destruct c0 as [d thr g mil]. cbn [sensors] in E. subst d.
    rewrite update_sensors_run. cbn zeta.
    destruct (list_getitem gear_ratios g) as [r|e] eqn:G; [|discriminate].
    intros _. exists r. unfold self_of. cbn [snd gear].
    split; [exact G|]. repeat split. }
  destruct cl as [t|g]; cbn [do_call];
    [rewrite set_throttle_unfold|rewrite set_gear_unfold]; apply U; exact H.
Qed.

Lemma completed_pass_couples_channels_witness :
  has_channels init /\
  result_of (do_call (SetGear (PyInt 5)) w0 init) = Ok tt /\
  true_value "SPEED" (self_of (do_call (SetGear (PyInt 5)) w0 init)) =
  true_value "RPM" (self_of (do_call (SetGear (PyInt 5)) w0 init)) * 1.0 / 60.
Proof.
  split; [reflexivity|]. split; [reflexivity|].
  destruct (completed_pass_couples_channels (SetGear (PyInt 5)) w0 init
              eq_refl eq_refl) as (ratio & Hr & Hs & _).
  cbv zeta in Hs. rewrite Hs. injection Hr as <-. reflexivity.
Defined.

(** ** A float gear *)

Lemma update_int_gear_completes w c z :
  has_channels c -> gear c = PyInt z -> (1 <= z <= 6)%Z ->
  result_of (_update_sensors w c) = Ok tt.
Proof.
  intros H G Hz.
  destruct (has_channels_shape c H)
    as (s0 & s1 & s2 & s3 & s4 & s5 & s6 & s7 & s8 & s9 & E).
  destruct c as [d thr g mil]. cbn [sensors gear] in *. subst d g.
  rewrite update_sensors_run. cbn zeta.
  destruct (gear_ratio_lookup (PyInt z) Hz) as [(r & -> & _)|[_ [q Hq]]].
  - reflexivity.
  - discriminate Hq.
Qed.

Lemma update_float_gear_state w c q :
  has_channels c -> gear c = PyFloat q ->
  self_of (_update_sensors w c) =
  mkCar (dict_update "RPM"
           (with_value (true_value "RPM" c +
                        (800 + throttle c * 50 - true_value "RPM" c) * 0.1))
           (sensors c))
        (throttle c) (gear c) (mileage c).
Proof.
  intros H G.
  destruct (has_channels_shape c H)
    as (s0 & s1 & s2 & s3 & s4 & s5 & s6 & s7 & s8 & s9 & E).
  destruct c as [d thr g mil]. cbn [sensors gear] in *. subst d g.
  rewrite update_sensors_run. reflexivity.
Qed.

Lemma throttle_calls_on_float_gear ts : forall w c q,
  has_channels c -> gear c = PyFloat q ->
  Forall (fun o => o = Raise TypeError)
    (outcomes_of (run_calls (map SetThrottle ts) w c)).
Proof.
  induction ts as [|t ts IH]; intros w c q H G; [constructor|].
  cbn [map]. rewrite outcomes_cons. cbn [do_call]. rewrite !set_throttle_unfold.
  set (c0 := mkCar (sensors c) (np_clip t 0 100) (gear c) (mileage c)).
  assert (H0 : has_channels c0) by exact H.
  destruct (update_frame w c0 H0) as (_ & Eg & _ & _).
  constructor.
  - exact (update_float_gear w c0 q H0 G).
  - apply (IH _ _ q).
    + exact (call_has_channels (SetThrottle t) w c H).
    + rewrite Eg. exact G.
Qed.

(** X9. On a model with its ten channels, [set_gear] with a float raises
    [TypeError] half way: the clamped float is stored as the gear and the RPM
    has moved a tenth of the way to its target, while every other channel,
    the throttle and the mileage are as before.  From then on every
    [set_throttle] raises [TypeError] as well, each call of any sequence of
    them, until a [set_gear] with an integer, which completes. *)
Theorem float_gear_poisons_the_model
  (w : World) (c : VirtualCarSimulator) (q : Q) :
  has_channels c ->
  let c' := self_of (set_gear (PyFloat q) w c) in
  result_of (set_gear (PyFloat q) w c) = Raise TypeError /\
  c' = mkCar (dict_update "RPM"
                (with_value (true_value "RPM" c +
                             (800 + throttle c * 50 - true_value "RPM" c) * 0.1))
                (sensors c))
             (throttle c) (PyFloat (Qclip q 1 6)) (mileage c) /\
  (forall t w', result_of (set_throttle t w' c') = Raise TypeError) /\
  (forall z w', result_of (set_gear (PyInt z) w' c') = Ok tt) /\
  (forall ts w',
     Forall (fun o => o = Raise TypeError)
       (outcomes_of (run_calls (map SetThrottle ts) w' c'))).
Proof.
  intros H c'. subst c'. rewrite !set_gear_unfold.
  set (c0 := mkCar (sensors c) (throttle c) (np_clip (PyFloat q) 1 6) (mileage c)).
  assert (H0 : has_channels c0) by exact H.
  assert (H' : has_channels (self_of (_update_sensors w c0))).
  { exact (call_has_channels (SetGear (PyFloat q)) w c H). }
  split; [exact (update_float_gear w c0 _ H0 eq_refl)|].
  split; [exact (update_float_gear_state w c0 _ H0 eq_refl)|].
  destruct (update_frame w c0 H0) as (_ & Eg & _ & _).
  split; [|split].
  - intros t w'. rewrite set_throttle_unfold.
    apply (update_float_gear w' _ (Qclip q 1 6)); [exact H'|].
    cbn [gear]. exact Eg.
  - intros z w'. rewrite set_gear_unfold.
    apply (update_int_gear_completes w' _ (Z.min (Z.max z 1) 6));
      [exact H'|reflexivity|lia].
  - intros ts w'.
    apply (throttle_calls_on_float_gear ts w' _ (Qclip q 1 6) H' Eg).
Qed.

Lemma float_gear_poisons_the_model_witness :
  has_channels init /\
  result_of (set_gear (PyFloat 4.5) w0 init) = Raise TypeError /\
  result_of (set_throttle (PyInt 30) w0 (self_of (set_gear (PyFloat 4.5) w0 init)))
  = Raise TypeError /\
  result_of (set_gear (PyInt 4) w0 (self_of (set_gear (PyFloat 4.5) w0 init)))
  = Ok tt.
Proof.
  split; [reflexivity|].
  destruct (float_gear_poisons_the_model w0 init 4.5 eq_refl)
    as (Hr & _ & Ht & Hg & _).
  split; [exact Hr|]. split; [apply Ht|apply Hg].
Defined.

(** ** How far the stored values can go *)

Lemma update_speed_envelope w c :
  Inv c -> true_value "SPEED" c <= 1015 # 3 ->
  true_value "SPEED" (self_of (_update_sensors w c)) <= 1015 # 3.
Proof.
  intros I Hs.
  destruct (has_channels_shape c (config_has_channels c (inv_config c I)))
    as (s0 & s1 & s2 & s3 & s4 & s5 & s6 & s7 & s8 & s9 & E).
  destruct I as [_ [It1 It2] Ig [Ir1 Ir2] _ _ _ _ _ _ _ _ _ _].
  destruct c as [d thr g mil]. cbn [sensors] in E. subst d.
  rewrite update_sensors_run. cbn zeta.
  eval_channels. undiv.
  set (rpm := value s0 + (800 + thr * 50 - value s0) * 0.1).
  assert (Hrpm : 800 <= rpm <= 5800) by (unfold rpm; split; lra).
  destruct (gear_ratio_lookup g Ig) as [(r & -> & Hr1 & Hr2)|[-> _]];
    unfold self_of; eval_channels; [|exact Hs].
  assert (rpm * r <= 5800 * (35 # 10)) by nra.
  lra.
Qed.

Lemma calls_speed_envelope cs : forall w c,
  Inv c -> true_value "SPEED" c <= 1015 # 3 ->
  true_value "SPEED" (after cs w c) <= 1015 # 3.
Proof.
  induction cs as [|cl cs IH]; intros w c I Hs; [exact Hs|].
  rewrite run_calls_cons. apply IH; [now apply Inv_call|].
  destruct cl as [t|g]; cbn [do_call];
    [rewrite set_throttle_unfold|rewrite set_gear_unfold];
    (apply update_speed_envelope; [|exact Hs]);
    destruct I; constructor; eval_channels; try assumption.
  - apply (np_clip_bounds t 0 100). lia.
  - apply np_clip_gear_ok.
Qed.

(** X10. From the freshly constructed model and after any sequence of calls,
    the stored values that can leave their channel's bounds stay within an
    envelope of their own: the speed in [0, 1015/3] (about 338.3, for a
    channel maximum of 200), the coolant temperature in [85, 146.6] and the
    oil temperature in [80, 146.6] (for channel maxima of 120). *)
Theorem stored_value_envelope (cs : list call) (w : World) :
  0 <= true_value "SPEED" (after cs w init) <= 1015 # 3 /\
  85 <= true_value "COOLANT_TEMP" (after cs w init) <= 146.6 /\
  80 <= true_value "OIL_TEMP" (after cs w init) <= 146.6.
Proof.
  pose proof (Inv_after cs w init Inv_init) as I.
  split; [split|split].
  - apply I.
  - apply calls_speed_envelope; [exact Inv_init|].
    change (true_value "SPEED" init) with 0. lra.
  - apply I.
  - apply I.
Qed.

(** ** Mileage per tick *)

Lemma update_mileage_step w c z :
  Inv c -> gear c = PyInt z ->
  mileage c + (2 # 675) <= mileage (self_of (_update_sensors w c))
    <= mileage c + (203 # 2160).
Proof.
  intros I G.
  destruct (has_channels_shape c (config_has_channels c (inv_config c I)))
    as (s0 & s1 & s2 & s3 & s4 & s5 & s6 & s7 & s8 & s9 & E).
  destruct I as [_ [It1 It2] Ig [Ir1 Ir2] _ _ _ _ _ _ _ _ _ _].
  destruct c as [d thr g mil]. cbn [sensors gear] in *. subst d g.
  rewrite update_sensors_run. cbn zeta.
  eval_channels. undiv.
  set (rpm := value s0 + (800 + thr * 50 - value s0) * 0.1).
  assert (Hrpm : 800 <= rpm <= 5800) by (unfold rpm; split; lra).
  destruct (gear_ratio_lookup _ Ig) as [(r & -> & Hr1 & Hr2)|[_ [q Hq]]];
    [|discriminate Hq].
  unfold self_of; eval_channels.
  assert (800 * (8 # 10) <= rpm * r) by nra.
  assert (rpm * r <= 5800 * (35 # 10)) by nra.
  destruct (Qlt_le_dec 0 (rpm * r * (1 # 60))); split; lra.
Qed.

Lemma call_mileage_step cl w c z :
  Inv c -> gear c = PyInt z -> int_gear_call cl ->
  mileage c + (2 # 675) <= mileage (self_of (do_call cl w c))
    <= mileage c + (203 # 2160).
Proof.
  intros I G Hcl.
  destruct cl as [t|[z'|q]]; cbn [do_call int_gear_call] in *;
    try contradiction;
    [rewrite set_throttle_unfold|rewrite set_gear_unfold];
    match goal with |- context [_update_sensors w ?c0] =>
      change (mileage c) with (mileage c0);
      eapply (update_mileage_step w c0)
    end; try (cbn [gear]; first [exact G|reflexivity]);
    destruct I; constructor; eval_channels; try assumption.
  - apply (np_clip_bounds t 0 100). lia.
  - apply (np_clip_gear_ok (PyInt z')).
Qed.

Lemma calls_mileage_steps cs : forall w c z,
  Inv c -> gear c = PyInt z -> Forall int_gear_call cs ->
  mileage c + inject_Z (Z.of_nat (List.length cs)) * (2 # 675)
    <= mileage (after cs w c)
    <= mileage c + inject_Z (Z.of_nat (List.length cs)) * (203 # 2160).
Proof.
  induction cs as [|cl cs IH]; intros w c z I G Hcs.
  - unfold after. cbn [run_calls snd List.length Z.of_nat].
    change (inject_Z 0) with 0. split; lra.
  - inversion Hcs as [|? ? Hcl Hcs']; subst.
    destruct (call_completes cl w c z I G Hcl) as [_ [z' G']].
    pose proof (call_mileage_step cl w c z I G Hcl) as [S1 S2].
    rewrite run_calls_cons.
    pose proof (IH (world_of (do_call cl w c)) _ z' (Inv_call cl w c I) G' Hcs')
      as [T1 T2].
    cbn [List.length]. rewrite Nat2Z.inj_succ, <- Z.add_1_r, inject_Z_plus.
    change (inject_Z 1) with 1.
    set (n := inject_Z (Z.of_nat (List.length cs))) in *. split; lra.
Qed.

(** X11. From the freshly constructed model, a sequence of [n] calls with
    integer gears adds between [n * 2/675] and [n * 203/2160] km to the
    mileage of 45230: every tick counts as one second at a speed between
    32/3 km/h (idle RPM, sixth gear) and 1015/3 km/h (top RPM, first gear),
    the car never stands still. *)
Theorem mileage_grows_linearly (cs : list call) (w : World) :
  Forall int_gear_call cs ->
  45230 + inject_Z (Z.of_nat (List.length cs)) * (2 # 675)
    <= mileage (after cs w init)
    <= 45230 + inject_Z (Z.of_nat (List.length cs)) * (203 # 2160).
Proof.
  intros Hcs.
  pose proof (calls_mileage_steps cs w init 3 Inv_init eq_refl Hcs) as [L U].
  change (mileage init) with 45230.0 in L, U. split; lra.
Qed.

Lemma mileage_grows_linearly_witness :
  Forall int_gear_call [SetThrottle (PyInt 0); SetGear (PyInt 6)] /\
  45230 + 2 * (2 # 675)
    <= mileage (after [SetThrottle (PyInt 0); SetGear (PyInt 6)] w0 init)
    <= 45230 + 2 * (203 # 2160).
Proof.
  assert (H : Forall int_gear_call [SetThrottle (PyInt 0); SetGear (PyInt 6)])
    by (repeat constructor).
  split; [exact H|].
  exact (mileage_grows_linearly [SetThrottle (PyInt 0); SetGear (PyInt 6)] w0 H).
Defined.

(** ** The test driver *)

Lemma update_world_irrelevant w w' c :
  has_channels c ->
  self_of (_update_sensors w c) = self_of (_update_sensors w' c) /\
  result_of (_update_sensors w c) = result_of (_update_sensors w' c).
Proof.
  intros H.
  destruct (has_channels_shape c H)
    as (s0 & s1 & s2 & s3 & s4 & s5 & s6 & s7 & s8 & s9 & E).
  destruct c as [d thr g mil]. cbn [sensors] in E. subst d.
  rewrite !update_sensors_run. cbn zeta.
  destruct (list_getitem gear_ratios g); split; reflexivity.
Qed.

Lemma call_world_irrelevant cl w w' c :
  has_channels c -> self_of (do_call cl w c) = self_of (do_call cl w' c).
Proof.
  intros H. destruct cl as [t|g]; cbn [do_call];
    [rewrite !set_throttle_unfold|rewrite !set_gear_unfold];
    now apply update_world_irrelevant.
Qed.

Lemma after_world_irrelevant cs : forall w w' c,
  has_channels c -> after cs w c = after cs w' c.
Proof.
  induction cs as [|cl cs IH]; intros w w' c H; [reflexivity|].
  rewrite !run_calls_cons, !call_world by exact H.
  rewrite (call_world_irrelevant cl w w' c H).
  apply IH, call_has_channels, H.
Qed.

Lemma call_run cl w c :
  has_channels c ->
  do_call cl w c = (result_of (do_call cl w c), w, after [cl] w c).
Proof.
  intros H. pose proof (call_world cl w c H) as Hw.
  unfold after. cbn [run_calls].
  destruct (do_call cl w c) as [[o w'] c']. cbn in Hw. now subst w'.
Qed.

Lemma script_eta s :
  mkScript (console s) (mkTester (car (tester s)) (history (tester s))) = s.
Proof. now destruct s as [l [c h]]. Qed.

Lemma dict_get_static k c :
  option_map static (dict_get k (sensors c)) = dict_get k (config c).
Proof.
  unfold config. induction (sensors c) as [|[k' v] d IH]; [reflexivity|].
  cbn [map dict_get fst snd]. now destruct (String.eqb k k').
Qed.

(** One [self.car.read_all_sensors()] of the driver. *)
Lemma sample_run w s :
  Inv (car (tester s)) ->
  exists data,
    on_car read_all_sensors w s = (Ok data, advance 10 w, s) /\
    snapshot_ok data /\
    forall i k rd,
      nth_error data i = Some (k, rd) ->
      exists sn, dict_get k (sensors (car (tester s))) = Some sn /\
                 result_of (SimulatedSensorMethods.read (advance i w) sn) = Ok rd.
Proof.
  intros I. set (c := car (tester s)) in *.
  pose proof (config_has_channels c (inv_config c I)) as H.
  unfold on_car. fold c. unfold read_all_sensors, bind, gets.
  destruct (read_each_run (map fst (sensors c)) w c (fun k => dict_get_key k _))
    as (rs & Hrun & Hkeys & Hrd).
  rewrite Hrun, length_map.
  replace (List.length (sensors c)) with 10%nat
    by (rewrite <- (length_map fst), H; reflexivity).
  exists rs. unfold c at 2. rewrite script_eta.
  split; [reflexivity|]. split; [|exact Hrd].
  split; [now rewrite Hkeys|].
  intros k rd Hin. apply In_nth_error in Hin. destruct Hin as [i Hi].
  destruct (Hrd i k rd Hi) as (sn & Hs & Hr).
  pose proof (Inv_reading_between c k sn _ rd I Hs Hr) as Hb.
  pose proof (dict_get_static k c) as E1.
  pose proof (dict_get_static k init) as E2.
  rewrite (inv_config c I), <- E2, Hs in E1.
  unfold channel_holds.
  destruct (dict_get k (sensors init)) as [si|]; [|discriminate E1].
  cbn [option_map] in E1. unfold static in E1.
  injection E1 as _ L U _. now rewrite <- L, <- U.
Qed.

Lemma snap_value_run (data : dict Reading) k w (s : Script) :
  map fst data = channel_names -> In k channel_names ->
  exists rd, dict_get k data = Some rd /\
             snap_value data k w s = (Ok (reading_value rd), w, s).
Proof.
  intros Hk Hin. rewrite <- Hk in Hin.
  pose proof (dict_get_key k data Hin) as Hd. unfold snap_value.
  destruct (dict_get k data) as [rd|]; [|contradiction].
  now exists rd.
Qed.

Lemma unit_draws_advance n w : unit_draws w -> unit_draws (advance n w).
Proof. intros H m. exact (H m). Qed.

(** A loop whose body makes the calls [calls_of i] on the car, appends one
    snapshot to the history and prints one line. *)
Lemma sampling_loop {A} (W : World -> Prop) (L : fstring -> Prop)
  (calls_of : A -> list call) (body : A -> M Script unit) :
  (forall n w, W w -> W (advance n w)) ->
  (forall i, Forall int_gear_call (calls_of i)) ->
  (forall i w s z,
     W w -> Inv (car (tester s)) -> gear (car (tester s)) = PyInt z ->
     exists data line,
       body i w s =
       (Ok tt, advance 10 w,
        mkScript (console s ++ [line])
          (mkTester (after (calls_of i) w (car (tester s)))
                    (history (tester s) ++ [data]))) /\
       snapshot_ok data /\ L line) ->
  forall l w s z,
    W w -> Inv (car (tester s)) -> gear (car (tester s)) = PyInt z ->
    exists new lines,
      for_each l body w s =
      (Ok tt, advance (10 * List.length l) w,
       mkScript (console s ++ lines)
         (mkTester (after (flat_map calls_of l) w (car (tester s)))
                   (history (tester s) ++ new))) /\
      List.length new = List.length l /\ List.length lines = List.length l /\
      Forall snapshot_ok new /\ Forall L lines.
Proof.
  intros HW Hcalls Hbody l.
  induction l as [|i l IH]; intros w s z Hw I G.
  - exists [], []. cbn [for_each List.length flat_map]. unfold ret, after.
    cbn [run_calls snd]. rewrite !app_nil_r, advance_0, script_eta.
    repeat split; constructor.
  - destruct (Hbody i w s z Hw I G) as (data & line & Hrun & Hd & Hl).
    pose proof (config_has_channels _ (inv_config _ I)) as H.
    cbn [for_each]. unfold bind at 1. rewrite Hrun.
    set (c1 := after (calls_of i) w (car (tester s))).
    assert (I1 : Inv c1) by (apply Inv_after, I).
    destruct (calls_complete (calls_of i) w _ z I G (Hcalls i)) as [_ [z1 G1]].
    fold c1 in G1.
    destruct (IH (advance 10 w)
                (mkScript (console s ++ [line])
                   (mkTester c1 (history (tester s) ++ [data]))) z1
                (HW _ _ Hw) I1 G1)
      as (new & lines & Hloop & Hn & Hls & Hnew & Hlines).
    rewrite Hloop. cbn [console tester car history].
    exists (data :: new), (line :: lines).
    rewrite advance_advance, <- !app_assoc. cbn [app flat_map List.length].
    rewrite (after_app (calls_of i) _ w _ H). fold c1.
    rewrite (after_world_irrelevant _ (advance 10 w) w c1)
      by (apply config_has_channels, I1).
    replace (10 * List.length l + 10)%nat with (10 * S (List.length l))%nat by lia.
    split; [reflexivity|].
    repeat split; try (constructor; assumption); now f_equal.
Qed.

Lemma snapshot_get data k :
  snapshot_ok data -> In k channel_names ->
  exists rd, dict_get k data = Some rd.
Proof.
  intros [Hk _] Hin. rewrite <- Hk in Hin.
  pose proof (dict_get_key k data Hin) as Hd.
  destruct (dict_get k data) as [rd|]; [now exists rd|contradiction].
Qed.

Lemma on_car_call cl w s z :
  Inv (car (tester s)) -> gear (car (tester s)) = PyInt z -> int_gear_call cl ->
  on_car (do_call cl) w s =
  (Ok tt, w,
   mkScript (console s)
     (mkTester (after [cl] w (car (tester s))) (history (tester s)))).
Proof.
  intros I G Hcl. unfold on_car.
  rewrite (call_run cl w _ (config_has_channels _ (inv_config _ I))).
  now rewrite (proj1 (call_completes cl w _ z I G Hcl)).
Qed.

Ltac channel_key := cbn; tauto.

Lemma idle_body_run i w s :
  Inv (car (tester s)) ->
  exists data line,
    (data <- on_car read_all_sensors ;;
     history_append data ;;
     rpm <- snap_value data "RPM" ;;
     temp <- snap_value data "COOLANT_TEMP" ;;
     print (Fmt "Second {}: RPM={}, Temp={:.1f}°C"
                [AInt (i + 1); AFloat rpm; AFloat temp]) ;;
     time_sleep) w s =
    (Ok tt, advance 10 w,
     mkScript (console s ++ [line])
       (mkTester (after [] w (car (tester s))) (history (tester s) ++ [data]))) /\
    snapshot_ok data.
Proof.
  intros I. destruct (sample_run w s I) as (data & Hrun & Hok & _).
  destruct (snapshot_get data "RPM" Hok ltac:(channel_key)) as [r1 H1].
  destruct (snapshot_get data "COOLANT_TEMP" Hok ltac:(channel_key)) as [r2 H2].
  exists data. eexists. split; [|exact Hok].
  unfold bind at 1. rewrite Hrun. unfold snap_value. rewrite H1, H2.
  reflexivity.
Qed.

Lemma cruise_body_run i w s :
  Inv (car (tester s)) ->
  exists data line,
    (data <- on_car read_all_sensors ;;
     history_append data ;;
     speed <- snap_value data "SPEED" ;;
     temp <- snap_value data "COOLANT_TEMP" ;;
     fuel <- snap_value data "FUEL_RATE" ;;
     print (Fmt "Second {}: Speed={:.1f} km/h, Temp={:.1f}°C, Fuel={:.2f} L/h"
                [AInt (i + 1); AFloat speed; AFloat temp; AFloat fuel]) ;;
     time_sleep) w s =
    (Ok tt, advance 10 w,
     mkScript (console s ++ [line])
       (mkTester (after [] w (car (tester s))) (history (tester s) ++ [data]))) /\
    snapshot_ok data.
Proof.
  intros I. destruct (sample_run w s I) as (data & Hrun & Hok & _).
  destruct (snapshot_get data "SPEED" Hok ltac:(channel_key)) as [r1 H1].
  destruct (snapshot_get data "COOLANT_TEMP" Hok ltac:(channel_key)) as [r2 H2].
  destruct (snapshot_get data "FUEL_RATE" Hok ltac:(channel_key)) as [r3 H3].
  exists data. eexists. split; [|exact Hok].
  unfold bind at 1. rewrite Hrun. unfold snap_value. rewrite H1, H2, H3.
  reflexivity.
Qed.

Lemma ramp_body_run i w s z :
  Inv (car (tester s)) -> gear (car (tester s)) = PyInt z ->
  exists data line,
    (on_car (set_throttle (PyInt (Z.min 100 (i * 10)))) ;;
     data <- on_car read_all_sensors ;;
     history_append data ;;
     rpm <- snap_value data "RPM" ;;
     speed <- snap_value data "SPEED" ;;
     print (Fmt "Second {}: Throttle={}%, RPM={:.0f}, Speed={:.1f} km/h"
                [AInt (i + 1); AInt (Z.min 100 (i * 10)); AFloat rpm; AFloat speed]) ;;
     time_sleep) w s =
    (Ok tt, advance 10 w,
     mkScript (console s ++ [line])
       (mkTester (after [SetThrottle (PyInt (Z.min 100 (i * 10)))] w (car (tester s)))
                 (history (tester s) ++ [data]))) /\
    snapshot_ok data.
Proof.
  intros I G.
  pose proof (on_car_call (SetThrottle (PyInt (Z.min 100 (i * 10)))) w s z I G
                Logic.I) as Hcall.
  cbn [do_call] in Hcall.
  set (s1 := mkScript (console s)
               (mkTester (after [SetThrottle (PyInt (Z.min 100 (i * 10)))] w
                            (car (tester s))) (history (tester s)))) in *.
  assert (I1 : Inv (car (tester s1))) by (apply Inv_after, I).
  destruct (sample_run w s1 I1) as (data & Hrun & Hok & _).
  destruct (snapshot_get data "RPM" Hok ltac:(channel_key)) as [r1 H1].
  destruct (snapshot_get data "SPEED" Hok ltac:(channel_key)) as [r2 H2].
  exists data. eexists. split; [|exact Hok].
  unfold bind at 1. rewrite Hcall.
  unfold bind at 1. rewrite Hrun. unfold snap_value. rewrite H1, H2.
  reflexivity.
Qed.

Lemma rpm_reading_low c sn w rd :
  Inv c -> dict_get "RPM" (sensors c) = Some sn ->
  0 <= random_tape w (random_pos w) <= 1 ->
  result_of (SimulatedSensorMethods.read w sn) = Ok rd ->
  reading_value rd <= 5850.
Proof.
  intros I Hs Hu Hr.
  pose proof (inv_rpm c I) as [_ Hv]. unfold true_value in Hv. rewrite Hs in Hv.
  pose proof (dict_get_static "RPM" c) as E.
  rewrite (inv_config c I), Hs in E. cbn in E. unfold static in E.
  injection E as _ L U N.
  rewrite read_run in Hr. injection Hr as <-. cbn [reading_value].
  rewrite L, U, N.
  assert (Hn : 0 <= 50) by lra.
  pose proof (uniform_of_between 50 _ Hn Hu) as [_ N2].
  set (noise := uniform_of _ _ _) in *.
  apply (round2_between 0 5850). split.
  - apply (Qclip_bounds _ 0 7000). lra.
  - unfold Qclip. change (inject_Z 5850) with 5850.
    apply Qle_trans with (Qmax (value sn + noise) 0); [apply Q.le_min_l|].
    apply Q.max_lub; lra.
Qed.

Lemma high_load_body_run i w s :
  Inv (car (tester s)) ->
  exists data line,
    (data <- on_car read_all_sensors ;;
     history_append data ;;
     temp <- snap_value data "COOLANT_TEMP" ;;
     let warnings := if Qlt_le_dec 100 temp then [high_temp_warning] else [] in
     rpm <- snap_value data "RPM" ;;
     let warnings :=
       if Qlt_le_dec 6000 rpm then (warnings ++ [high_rpm_warning])%list
       else warnings in
     let warn_str :=
       match warnings with
       | [] => no_warning
       | _ => String.concat " " warnings
       end in
     load <- snap_value data "ENGINE_LOAD" ;;
     temp <- snap_value data "COOLANT_TEMP" ;;
     print (Fmt "Second {}: Load={:.1f}%, Temp={:.1f}°C, {}"
                [AInt (i + 1); AFloat load; AFloat temp; AStr warn_str]) ;;
     time_sleep) w s =
    (Ok tt, advance 10 w,
     mkScript (console s ++ [line])
       (mkTester (after [] w (car (tester s))) (history (tester s) ++ [data]))) /\
    snapshot_ok data /\ (unit_draws w -> calm_line line).
Proof.
  intros I. destruct (sample_run w s I) as (data & Hrun & Hok & Hrd).
  destruct (snapshot_get data "COOLANT_TEMP" Hok ltac:(channel_key)) as [r1 H1].
  destruct (snapshot_get data "RPM" Hok ltac:(channel_key)) as [r2 H2].
  destruct (snapshot_get data "ENGINE_LOAD" Hok ltac:(channel_key)) as [r3 H3].
  assert (Hlow : unit_draws w -> reading_value r2 <= 5850).
  { intros Hw. pose proof (dict_get_In _ _ _ H2) as Hin.
    apply In_nth_error in Hin. destruct Hin as [j Hj].
    destruct (Hrd j "RPM" r2 Hj) as (sn & Hs & Hr).
    apply (rpm_reading_low _ sn (advance j w) r2 I Hs); [|exact Hr].
    apply Hw. }
  exists data.
  destruct (Qlt_le_dec 100 (reading_value r1)) as [Ht|Ht] eqn:Et;
    destruct (Qlt_le_dec 6000 (reading_value r2)) as [Hr|Hr] eqn:Er;
    eexists; (split; [|split; [exact Hok|]]);
    try (unfold bind at 1; rewrite Hrun; unfold snap_value;
         rewrite H1, H2, H3; unfold bind, ret; rewrite Et, Er; reflexivity);
    intros Hw s' [Hs'|[Hs'|[Hs'|[Hs'|[]]]]]; try discriminate Hs';
    injection Hs' as <-; specialize (Hlow Hw); try lra.
  - right. reflexivity.
  - left. reflexivity.
Qed.

Lemma flat_map_nil {A B} (l : list A) : flat_map (fun _ => @nil B) l = [].
Proof. induction l; [reflexivity|assumption]. Qed.

Lemma py_range_length n : List.length (py_range n) = Z.to_nat n.
Proof. unfold py_range. now rewrite length_map, length_seq. Qed.

Lemma print_then l (m : M Script unit) w s :
  (print l ;; m) w s = m w (mkScript (console s ++ [l]) (tester s)).
Proof. reflexivity. Qed.

Lemma on_car_call_then cl (m : M Script unit) w s z :
  Inv (car (tester s)) -> gear (car (tester s)) = PyInt z -> int_gear_call cl ->
  (on_car (do_call cl) ;; m) w s =
  m w (mkScript (console s)
         (mkTester (after [cl] w (car (tester s))) (history (tester s)))).
Proof.
  intros I G Hcl. unfold bind. now rewrite (on_car_call cl w s z I G Hcl).
Qed.

(** A loop that samples once per second and leaves the car alone. *)
Lemma sampling_only_loop (W : World -> Prop) (L : fstring -> Prop)
  (body : Z -> M Script unit) :
  (forall n w, W w -> W (advance n w)) ->
  (forall i w s,
     W w -> Inv (car (tester s)) ->
     exists data line,
       body i w s =
       (Ok tt, advance 10 w,
        mkScript (console s ++ [line])
          (mkTester (after [] w (car (tester s))) (history (tester s) ++ [data]))) /\
       snapshot_ok data /\ L line) ->
  forall duration w s z,
    W w -> Inv (car (tester s)) -> gear (car (tester s)) = PyInt z ->
    exists new lines,
      for_each (py_range duration) body w s =
      (Ok tt, advance (10 * Z.to_nat duration) w,
       mkScript (console s ++ lines)
         (mkTester (car (tester s)) (history (tester s) ++ new))) /\
      List.length new = Z.to_nat duration /\
      List.length lines = Z.to_nat duration /\
      Forall snapshot_ok new /\ Forall L lines.
Proof.
  intros HW Hbody duration w s z Hw I G.
  destruct (sampling_loop W L (fun _ => []) body HW
              (fun _ => Forall_nil _)
              (fun i w s z Hw I _ => Hbody i w s Hw I)
              (py_range duration) w s z Hw I G)
    as (new & lines & Hloop & Hn & Hl & Hnew & Hlines).
  rewrite py_range_length in *. rewrite flat_map_nil in Hloop.
  exists new, lines. repeat split; assumption.
Qed.

Lemma ramp_calls_flat_map duration :
  flat_map (fun i => [SetThrottle (PyInt (Z.min 100 (i * 10)))]) (py_range duration)
  = ramp_calls duration.
Proof.
  unfold ramp_calls. induction (py_range duration) as [|i l IH]; [reflexivity|].
  cbn [map flat_map app]. now rewrite IH.
Qed.

Ltac first_call cl w z I G :=
  match goal with |- context [bind (on_car _) _ w ?s0] =>
    rewrite (on_car_call_then cl _ w s0 z I G Logic.I)
  end.

Ltac with_true H :=
  let data := fresh "data" in
  let line := fresh "line" in
  let Hd := fresh "Hd" in
  destruct H as (data & line & ? & Hd);
  exists data, line; repeat split; try assumption; try apply Hd.

(** X12. Each of the four scenarios of the driver, run for [duration]
    seconds on a tester whose car is in a reachable state with an integer
    gear, completes without an exception; it leaves the car as its calls
    alone leave it ([set_throttle(0)]; [set_throttle(50)] and [set_gear(5)];
    [set_throttle(90)] and [set_gear(3)]; the throttle ramp
    min(100, 10 * i)), appends one snapshot per second to the history, each
    with the ten channels and every reading within the bounds of its channel,
    and prints two title lines and one line per second.  A duration of zero
    or less samples nothing. *)
Theorem scenarios_run_the_model (duration : Z) :
  scenario_ok [SetThrottle (PyInt 0)] duration (test_idle duration) /\
  scenario_ok [SetThrottle (PyInt 50); SetGear (PyInt 5)] duration
    (test_steady_cruise duration) /\
  scenario_ok [SetThrottle (PyInt 90); SetGear (PyInt 3)] duration
    (test_high_load duration) /\
  scenario_ok (ramp_calls duration) duration (test_acceleration duration).
Proof.
  assert (HT : forall (n : nat) (w : World), True -> True) by trivial.
  repeat split; intros w s z I G.
  - unfold test_idle. rewrite !print_then.
    first_call (SetThrottle (PyInt 0)) w z I G.
    match goal with |- context [for_each _ ?b w ?s1] =>
      assert (I1 : Inv (car (tester s1))) by (apply Inv_after, I);
      destruct (calls_complete [SetThrottle (PyInt 0)] w _ z I G
                  ltac:(repeat constructor)) as [_ [z1 G1]];
      destruct (sampling_only_loop (fun _ => True) (fun _ => True) b HT
                  (fun i w s _ I => ltac:(with_true (idle_body_run i w s I)))
                  duration w s1 z1 Logic.I I1 G1)
        as (new & lines & Hloop & Hn & Hl & Hnew & _)
    end.
    rewrite Hloop. cbn [console tester car history].
    exists new, (Fmt (newline ++ " TEST 1: Idle Engine") [] :: rule :: lines).
    rewrite <- !app_assoc. cbn [app List.length]. rewrite Hl.
    repeat split; assumption.
  - unfold test_steady_cruise. rewrite !print_then.
    first_call (SetThrottle (PyInt 50)) w z I G.
    destruct (calls_complete [SetThrottle (PyInt 50)] w _ z I G
                ltac:(repeat constructor)) as [_ [z0 G0]].
    pose proof (Inv_after [SetThrottle (PyInt 50)] w _ I) as I0.
    first_call (SetGear (PyInt 5)) w z0 I0 G0.
    cbn [console tester car history].
    rewrite <- (after_app [SetThrottle (PyInt 50)] [SetGear (PyInt 5)] w _
                  (config_has_channels _ (inv_config _ I))).
    cbn [app].
    match goal with |- context [for_each _ ?b w ?s1] =>
      assert (I1 : Inv (car (tester s1))) by (apply Inv_after, I);
      destruct (calls_complete [SetThrottle (PyInt 50); SetGear (PyInt 5)] w _ z
                  I G ltac:(repeat constructor)) as [_ [z1 G1]];
      destruct (sampling_only_loop (fun _ => True) (fun _ => True) b HT
                  (fun i w s _ I => ltac:(with_true (cruise_body_run i w s I)))
                  duration w s1 z1 Logic.I I1 G1)
        as (new & lines & Hloop & Hn & Hl & Hnew & _)
    end.
    rewrite Hloop. cbn [console tester car history].
    exists new, (Fmt (newline ++ " TEST 3: Steady Cruise") [] :: rule :: lines).
    rewrite <- !app_assoc. cbn [app List.length]. rewrite Hl.
    repeat split; assumption.
  - unfold test_high_load. rewrite !print_then.
    first_call (SetThrottle (PyInt 90)) w z I G.
    destruct (calls_complete [SetThrottle (PyInt 90)] w _ z I G
                ltac:(repeat constructor)) as [_ [z0 G0]].
    pose proof (Inv_after [SetThrottle (PyInt 90)] w _ I) as I0.
    first_call (SetGear (PyInt 3)) w z0 I0 G0.
    cbn [console tester car history].
    rewrite <- (after_app [SetThrottle (PyInt 90)] [SetGear (PyInt 3)] w _
                  (config_has_channels _ (inv_config _ I))).
    cbn [app].
    match goal with |- context [for_each _ ?b w ?s1] =>
      assert (I1 : Inv (car (tester s1))) by (apply Inv_after, I);
      destruct (calls_complete [SetThrottle (PyInt 90); SetGear (PyInt 3)] w _ z
                  I G ltac:(repeat constructor)) as [_ [z1 G1]];
      destruct (sampling_only_loop (fun _ => True) (fun _ => True) b HT
                  (fun i w s _ I => ltac:(with_true (high_load_body_run i w s I)))
                  duration w s1 z1 Logic.I I1 G1)
        as (new & lines & Hloop & Hn & Hl & Hnew & _)
    end.
    rewrite Hloop. cbn [console tester car history].
    exists new,
      (Fmt (newline ++ " TEST 4: High Load (Stress Test)") [] :: rule :: lines).
    rewrite <- !app_assoc. cbn [app List.length]. rewrite Hl.
    repeat split; assumption.
  - unfold test_acceleration. rewrite !print_then.
    match goal with |- context [for_each _ ?b w ?s1] =>
      destruct (sampling_loop (fun _ => True) (fun _ => True)
                  (fun i => [SetThrottle (PyInt (Z.min 100 (i * 10)))]) b HT
                  (fun i => ltac:(repeat constructor))
                  (fun i w s z _ I G => ltac:(with_true (ramp_body_run i w s z I G)))
                  (py_range duration) w s1 z Logic.I I G)
        as (new & lines & Hloop & Hn & Hl & Hnew & _)
    end.
    rewrite Hloop. cbn [console tester car history].
    rewrite py_range_length in *.
    exists new, (Fmt (newline ++ " TEST 2: Acceleration") [] :: rule :: lines).
    rewrite <- !app_assoc. cbn [app List.length]. rewrite Hl.
    rewrite ramp_calls_flat_map. repeat split; assumption.
Qed.

Lemma scenarios_run_the_model_witness :
  Inv (car (tester (mkScript [] init_tester))) /\
  gear (car (tester (mkScript [] init_tester))) = PyInt 3 /\
  exists new lines,
    test_acceleration 12 w0 (mkScript [] init_tester) =
    (Ok tt, advance (10 * Z.to_nat 12) w0,
     mkScript ([] ++ lines)
       (mkTester (after (ramp_calls 12) w0 init) ([] ++ new))) /\
    List.length new = Z.to_nat 12 /\
    List.length lines = (2 + Z.to_nat 12)%nat /\
    Forall snapshot_ok new.
Proof.
  split; [exact Inv_init|]. split; [reflexivity|].
  exact (proj2 (proj2 (proj2 (scenarios_run_the_model 12)))
           w0 (mkScript [] init_tester) 3%Z Inv_init eq_refl).
Defined.

(** X13. With a random source whose draws lie in [0, 1], [test_high_load] on
    a tester whose car is in a reachable state with an integer gear never
    prints the HIGH RPM warning: the stored RPM is at most 5800 and the noise
    at most 50, so no RPM reading exceeds 5850, below the threshold of 6000.
    The only warning text it prints is HIGH TEMP. *)
Theorem high_load_never_warns_rpm (duration : Z) (w : World) (s : Script) (z : Z) :
  unit_draws w ->
  Inv (car (tester s)) -> gear (car (tester s)) = PyInt z ->
  exists lines,
    result_of (test_high_load duration w s) = Ok tt /\
    console (self_of (test_high_load duration w s)) = (console s ++ lines)%list /\
    Forall calm_line lines.
Proof.
  intros Hw I G.
  unfold test_high_load. rewrite !print_then.
  first_call (SetThrottle (PyInt 90)) w z I G.
  destruct (calls_complete [SetThrottle (PyInt 90)] w _ z I G
              ltac:(repeat constructor)) as [_ [z0 G0]].
  pose proof (Inv_after [SetThrottle (PyInt 90)] w _ I) as I0.
  first_call (SetGear (PyInt 3)) w z0 I0 G0.
  cbn [console tester car history].
  rewrite <- (after_app [SetThrottle (PyInt 90)] [SetGear (PyInt 3)] w _
                (config_has_channels _ (inv_config _ I))).
  cbn [app].
  match goal with |- context [for_each _ ?b w ?s1] =>
    assert (I1 : Inv (car (tester s1))) by (apply Inv_after, I);
    destruct (calls_complete [SetThrottle (PyInt 90); SetGear (PyInt 3)] w _ z
                I G ltac:(repeat constructor)) as [_ [z1 G1]];
    destruct (sampling_only_loop unit_draws calm_line b
                (fun n w H => unit_draws_advance n w H)
                (fun i w s Hw I =>
                   ltac:(destruct (high_load_body_run i w s I)
                           as (data & line & ? & ? & Hc);
                         exists data, line;
                         split; [assumption|split; [assumption|now apply Hc]]))
                duration w s1 z1 Hw I1 G1)
      as (new & lines & Hloop & _ & _ & _ & Hlines)
  end.
  rewrite Hloop. unfold result_of, self_of. cbn [fst snd console].
  exists (Fmt (newline ++ " TEST 4: High Load (Stress Test)") [] :: rule :: lines).
  split; [reflexivity|]. split; [now rewrite <- !app_assoc|].
  apply Forall_cons; [intros s' H; cbn in H; contradiction|].
  apply Forall_cons; [intros s' H; cbn in H; contradiction|exact Hlines].
Qed.

Lemma high_load_never_warns_rpm_witness :
  unit_draws w0 /\ Inv init /\
  exists lines,
    console (self_of (test_high_load 8 w0 (mkScript [] init_tester))) = lines /\
    Forall calm_line lines.
Proof.
  assert (Hw : unit_draws w0) by (intros n; cbn; split; lra).
  split; [exact Hw|]. split; [exact Inv_init|].
  destruct (high_load_never_warns_rpm 8 w0 (mkScript [] init_tester) 3 Hw
              Inv_init eq_refl) as (lines & _ & Hc & Hl).
  exists lines. split; [exact Hc|exact Hl].
Defined.

(** ** Health scores *)

Lemma cooling_score_range t : 0 <= cooling_score t <= 100.
Proof.
  unfold cooling_score. pose proof (Qabs_nonneg (t - 85)) as Ha.
  set (a := Qabs (t - 85)) in *.
  destruct (Q.max_spec 0 (100 - a * 5)) as [[L ->]|[L ->]]; split; lra.
Qed.

Lemma lub_score_range p :
  0 <= lub_score p <= 100 /\ (15 <= p -> 60 <= lub_score p) /\
  (25 <= p -> lub_score p == 100).
Proof.
  unfold lub_score.
  destruct (Q.max_spec 0 (25 - p)) as [[L' E']|[L' E']]; rewrite E';
  destruct (Q.max_spec 0 (100 - (25 - p) * 4)) as [[L E]|[L E]];
  destruct (Q.max_spec 0 (100 - 0 * 4)) as [[M F]|[M F]];
  rewrite ?E, ?F; repeat split; intros; lra.
Qed.

Lemma mark_cases (x y : Q) (a b : string) :
  a <> b ->
  ((if Qlt_le_dec x y then a else b) = a <-> x < y) /\
  ((if Qlt_le_dec x y then a else b) = b <-> y <= x).
Proof.
  intros Hab. destruct (Qlt_le_dec x y) as [H|H]; repeat split; intros;
    try assumption; try reflexivity; try congruence; try lra.
Qed.

(** X14. Whatever the average temperature and the minimum oil pressure, the
    cooling, lubrication and overall scores of [analyze_health] lie in
    [0, 100], and the verdict agrees with the marks printed beside the
    scores: a LOW failure risk is only reported when both systems carry the
    check mark, and a HIGH risk only when at least one carries the warning
    mark.  The lubrication score is 100 when the minimum oil pressure is at
    least 25, and at least 60 when it is at least 15. *)
Theorem health_scores_consistent (avg_temp min_oil_pressure : Q) :
  let cooling := cooling_score avg_temp in
  let lub := lub_score min_oil_pressure in
  let overall := overall_score cooling lub in
  0 <= cooling <= 100 /\ 0 <= lub <= 100 /\ 0 <= overall <= 100 /\
  (risk_of overall = "LOW" -> score_mark cooling = "✓" /\ score_mark lub = "✓") /\
  (risk_of overall = "HIGH" -> score_mark cooling = "⚠️" \/ score_mark lub = "⚠️") /\
  (25 <= min_oil_pressure -> lub == 100) /\
  (15 <= min_oil_pressure -> 60 <= lub).
Proof.
  intros cooling lub overall.
  pose proof (cooling_score_range avg_temp) as [C1 C2].
  pose proof (lub_score_range min_oil_pressure) as ([L1 L2] & L60 & L100).
  fold cooling in C1, C2. fold lub in L1, L2, L60, L100.
  assert (Ho : overall == (cooling + lub) * (1 # 2))
    by (unfold overall, overall_score; field).
  assert (Hne : "✓" <> "⚠️") by discriminate.
  split; [split; assumption|]. split; [split; assumption|].
  split; [split; lra|]. split; [|split; [|split; assumption]].
  - unfold risk_of. destruct (Qlt_le_dec 90 overall) as [H|H];
      [intros _|destruct (Qlt_le_dec 75 overall); discriminate].
    split; apply (mark_cases 80 _ "✓" "⚠️" Hne); lra.
  - unfold risk_of. destruct (Qlt_le_dec 90 overall) as [H|H]; [discriminate|].
    destruct (Qlt_le_dec 75 overall) as [H'|H']; [discriminate|intros _].
    destruct (Qlt_le_dec 80 cooling) as [Hc|Hc].
    + right. apply (mark_cases 80 _ "✓" "⚠️" Hne). lra.
    + left. now apply (mark_cases 80 _ "✓" "⚠️" Hne).
Qed.

Lemma health_scores_consistent_witness :
  risk_of (overall_score (cooling_score 86) (lub_score 30)) = "LOW" /\
  score_mark (cooling_score 86) = "✓" /\ score_mark (lub_score 30) = "✓".
Proof.
  assert (H : risk_of (overall_score (cooling_score 86) (lub_score 30)) = "LOW")
    by (vm_compute; reflexivity).
  split; [exact H|].
  exact (proj1 (proj2 (proj2 (proj2 (health_scores_consistent 86 30)))) H).
Defined.

(** ** Maintenance *)

(** X15. [predict_maintenance] prints its two title lines and one line per
    item, raises nothing and changes neither the tester nor the world.  The
    mark of an item that is due stays the warning mark at every greater
    mileage, and so after every further sequence of calls on the car. *)
Theorem maintenance_warnings_persist (interval last_service : Z) :
  (forall w s, exists lines,
     predict_maintenance w s = (Ok tt, w, mkScript (console s ++ lines) (tester s)) /\
     List.length lines = 7%nat) /\
  (forall m m',
     m <= m' ->
     service_mark interval (remaining_km interval last_service m) = "⚠️" ->
     service_mark interval (remaining_km interval last_service m') = "⚠️") /\
  (forall cs w c,
     has_channels c ->
     service_mark interval (remaining_km interval last_service (mileage c)) = "⚠️" ->
     service_mark interval
       (remaining_km interval last_service (mileage (after cs w c))) = "⚠️").
Proof.
  assert (Hne : "✓" <> "⚠️") by discriminate.
  assert (Hmono : forall m m',
     m <= m' ->
     service_mark interval (remaining_km interval last_service m) = "⚠️" ->
     service_mark interval (remaining_km interval last_service m') = "⚠️").
  { intros m m' Hm. unfold service_mark, remaining_km. intros H.
    apply (mark_cases _ _ "✓" "⚠️" Hne) in H.
    apply (mark_cases _ _ "✓" "⚠️" Hne). lra. }
  split; [|split; [exact Hmono|]].
  - intros w s. eexists. split.
    + unfold predict_maintenance. rewrite !print_then.
      unfold bind at 1. unfold gets at 1. cbn [maintenance for_each].
      rewrite !print_then. unfold ret. cbn [console tester].
      rewrite <- !app_assoc. reflexivity.
    + reflexivity.
  - intros cs w c H. apply Hmono. now apply calls_mileage.
Qed.

Lemma maintenance_warnings_persist_witness :
  has_channels init /\
  service_mark 5000 (remaining_km 5000 43000 47100) = "⚠️" /\
  47100 <= 48000 /\
  service_mark 5000 (remaining_km 5000 43000 48000) = "⚠️".
Proof.
  assert (H : service_mark 5000 (remaining_km 5000 43000 47100) = "⚠️")
    by (vm_compute; reflexivity).
  assert (L : 47100 <= 48000) by lra.
  split; [reflexivity|]. split; [exact H|]. split; [exact L|].
  exact (proj1 (proj2 (maintenance_warnings_persist 5000 43000)) _ _ L H).
Defined.

(** ** The health analysis on a recorded history *)

Lemma bind_ok {Self A B} (m : M Self A) (k : A -> M Self B) w s a w' s' :
  m w s = (Ok a, w', s') -> bind m k w s = k a w' s'.
Proof. intros H. unfold bind. now rewrite H. Qed.

Lemma snap_value_bounded d k lo hi :
  snapshot_ok d -> In k channel_names ->
  (forall rd,
     channel_holds (fun sn => min_value sn <= reading_value rd <= max_value sn) k init ->
     lo <= reading_value rd <= hi) ->
  exists v, (forall w (s : Script), snap_value d k w s = (Ok v, w, s)) /\
            lo <= v <= hi.
Proof.
  intros Hok Hk Hb. destruct (snapshot_get d k Hok Hk) as [rd Hrd].
  exists (reading_value rd). split.
  - intros w s. unfold snap_value. now rewrite Hrd.
  - apply Hb, (proj2 Hok), dict_get_In, Hrd.
Qed.

Lemma comprehension_bounded ds k lo hi :
  Forall snapshot_ok ds -> In k channel_names ->
  (forall rd,
     channel_holds (fun sn => min_value sn <= reading_value rd <= max_value sn) k init ->
     lo <= reading_value rd <= hi) ->
  exists vs,
    (forall w (s : Script),
       comprehension ds (fun d => snap_value d k) w s = (Ok vs, w, s)) /\
    Forall (fun v => lo <= v <= hi) vs.
Proof.
  intros Hds Hk Hb. induction Hds as [|d ds Hd _ IH].
  - exists []. split; [reflexivity|constructor].
  - destruct (snap_value_bounded d k lo hi Hd Hk Hb) as (v & Hv & Hvb).
    destruct IH as (vs & Hvs & Hvsb).
    exists (v :: vs). split; [|now constructor].
    intros w s. cbn [comprehension].
    rewrite (bind_ok _ _ w s _ _ _ (Hv w s)).
    rewrite (bind_ok _ _ w s _ _ _ (Hvs w s)). reflexivity.
Qed.

Lemma np_min_between lo hi xs : forall x,
  lo <= x <= hi -> Forall (fun v => lo <= v <= hi) xs ->
  lo <= np_min x xs <= hi.
Proof.
  unfold np_min. induction xs as [|y xs IH]; intros x Hx Hxs; [exact Hx|].
  inversion Hxs as [|? ? Hy Hxs']; subst. cbn [fold_left]. apply IH; [|exact Hxs'].
  destruct (Q.min_spec x y) as [[_ ->]|[_ ->]]; assumption.
Qed.

Lemma np_max_between lo hi xs : forall x,
  lo <= x <= hi -> Forall (fun v => lo <= v <= hi) xs ->
  lo <= np_max x xs <= hi.
Proof.
  unfold np_max. induction xs as [|y xs IH]; intros x Hx Hxs; [exact Hx|].
  inversion Hxs as [|? ? Hy Hxs']; subst. cbn [fold_left]. apply IH; [|exact Hxs'].
  destruct (Q.max_spec x y) as [[_ ->]|[_ ->]]; assumption.
Qed.

Lemma sum_between lo hi xs : forall acc,
  Forall (fun v => lo <= v <= hi) xs ->
  acc + inject_Z (Z.of_nat (List.length xs)) * lo <= fold_left Qplus xs acc
    <= acc + inject_Z (Z.of_nat (List.length xs)) * hi.
Proof.
  induction xs as [|y xs IH]; intros acc Hxs.
  - cbn [fold_left List.length Z.of_nat]. change (inject_Z 0) with 0. split; lra.
  - inversion Hxs as [|? ? [Hy1 Hy2] Hxs']; subst. cbn [fold_left List.length].
    destruct (IH (acc + y) Hxs') as [I1 I2].
    rewrite Nat2Z.inj_succ, <- Z.add_1_r, inject_Z_plus.
    change (inject_Z 1) with 1.
    set (n := inject_Z (Z.of_nat (List.length xs))) in *. split; lra.
Qed.

Lemma np_mean_between lo hi x xs :
  lo <= x <= hi -> Forall (fun v => lo <= v <= hi) xs ->
  lo <= np_mean x xs <= hi.
Proof.
  intros [Hx1 Hx2] Hxs. unfold np_mean.
  destruct (sum_between lo hi xs x Hxs) as [S1 S2].
  rewrite Nat2Z.inj_succ, <- Z.add_1_r, inject_Z_plus.
  change (inject_Z 1) with 1.
  assert (N : 0 <= inject_Z (Z.of_nat (List.length xs))).
  { change 0 with (inject_Z 0). rewrite <- Zle_Qle. lia. }
  set (n := inject_Z (Z.of_nat (List.length xs))) in *.
  split.
  - apply Qle_shift_div_l; [lra|]. lra.
  - apply Qle_shift_div_r; [lra|]. lra.
Qed.

(** X16. [analyze_health] changes neither the tester nor the world.  On an
    empty history it prints "No data collected" after its two title lines
    and stops, dividing by nothing.  On a history of snapshots that each hold
    the ten channels with readings within bounds, as the scenarios record
    them, it completes and prints twelve lines; the averages and extremes it
    reports lie within the bounds of their channels, so that the lubrication
    score it prints is never below 60: the clamp of the oil-pressure reading
    at 15 hides any lower pressure from the analysis. *)
Theorem analyze_health_on_history (w : World) (s : Script) :
  (history (tester s) = [] ->
   analyze_health w s =
   (Ok tt, w,
    mkScript (console s ++ [Fmt (newline ++ " HEALTH ANALYSIS") []; rule;
                            Fmt "No data collected" []])
             (tester s))) /\
  (history (tester s) <> [] -> Forall snapshot_ok (history (tester s)) ->
   exists lines avg_temp min_oil_pressure,
     analyze_health w s = (Ok tt, w, mkScript (console s ++ lines) (tester s)) /\
     List.length lines = 12%nat /\
     60 <= avg_temp <= 120 /\ 15 <= min_oil_pressure <= 80 /\
     nth_error lines 8 =
       Some (Fmt "Cooling System:       {:.1f}% {}"
                 [AFloat (cooling_score avg_temp);
                  AStr (score_mark (cooling_score avg_temp))]) /\
     nth_error lines 9 =
       Some (Fmt "Lubrication System:   {:.1f}% {}"
                 [AFloat (lub_score min_oil_pressure);
                  AStr (score_mark (lub_score min_oil_pressure))]) /\
     60 <= lub_score min_oil_pressure).
Proof.
  split.
  - intros Hh. unfold analyze_health. rewrite !print_then.
    unfold bind at 1. unfold gets at 1. cbn [console tester]. rewrite Hh.
    unfold print, modify. cbn [console tester]. now rewrite <- !app_assoc.
  - intros Hne Hall.
    destruct (history (tester s)) as [|d ds] eqn:Hh; [contradiction|].
    inversion Hall as [|? ? Hd Hds]; subst.
    assert (Bt : forall rd,
      channel_holds (fun sn => min_value sn <= reading_value rd <= max_value sn)
        "COOLANT_TEMP" init -> 60 <= reading_value rd <= 120) by (intros rd H; exact H).
    assert (Br : forall rd,
      channel_holds (fun sn => min_value sn <= reading_value rd <= max_value sn)
        "RPM" init -> 0 <= reading_value rd <= 7000) by (intros rd H; exact H).
    assert (Bp : forall rd,
      channel_holds (fun sn => min_value sn <= reading_value rd <= max_value sn)
        "OIL_PRESSURE" init -> 15 <= reading_value rd <= 80) by (intros rd H; exact H).
    destruct (snap_value_bounded d "COOLANT_TEMP" _ _ Hd ltac:(channel_key) Bt) as (t & Ht & Htb).
    destruct (comprehension_bounded ds "COOLANT_TEMP" _ _ Hds ltac:(channel_key) Bt)
      as (ts & Hts & Htsb).
    destruct (snap_value_bounded d "RPM" _ _ Hd ltac:(channel_key) Br) as (r & Hr & Hrb).
    destruct (comprehension_bounded ds "RPM" _ _ Hds ltac:(channel_key) Br)
      as (rs & Hrs & Hrsb).
    destruct (snap_value_bounded d "OIL_PRESSURE" _ _ Hd ltac:(channel_key) Bp) as (p & Hp & Hpb).
    destruct (comprehension_bounded ds "OIL_PRESSURE" _ _ Hds ltac:(channel_key) Bp)
      as (ps & Hps & Hpsb).
    pose proof (np_mean_between 60 120 t ts Htb Htsb) as Havg.
    pose proof (np_min_between 15 80 ps p Hpb Hpsb) as Hmin.
    eexists. exists (np_mean t ts), (np_min p ps).
    split; [|split; [|split; [exact Havg|split; [exact Hmin|]]]].
    + unfold analyze_health. rewrite !print_then.
      unfold bind at 1. unfold gets at 1. cbn [console tester]. rewrite Hh.
      rewrite (bind_ok _ _ w _ _ _ _ (Ht w _)).
      rewrite (bind_ok _ _ w _ _ _ _ (Hts w _)).
      rewrite (bind_ok _ _ w _ _ _ _ (Hr w _)).
      rewrite (bind_ok _ _ w _ _ _ _ (Hrs w _)).
      rewrite (bind_ok _ _ w _ _ _ _ (Hp w _)).
      rewrite (bind_ok _ _ w _ _ _ _ (Hps w _)).
      cbv zeta. rewrite !print_then. unfold print, modify.
      cbn [console tester]. rewrite <- !app_assoc. cbn [app]. reflexivity.
    + reflexivity.
    + split; [reflexivity|]. split; [reflexivity|].
      apply lub_score_range. apply Hmin.
Qed.

Lemma analyze_health_on_history_witness :
  (history (tester (mkScript [] init_tester)) = [] /\
   analyze_health w0 (mkScript [] init_tester) =
   (Ok tt, w0,
    mkScript ([] ++ [Fmt (newline ++ " HEALTH ANALYSIS") []; rule;
                     Fmt "No data collected" []])
             (tester (mkScript [] init_tester)))) /\
  (exists data,
     on_car read_all_sensors w0 (mkScript [] init_tester)
     = (Ok data, advance 10 w0, mkScript [] init_tester) /\
     history (tester (mkScript [] (mkTester init [data]))) <> [] /\
     Forall snapshot_ok (history (tester (mkScript [] (mkTester init [data])))) /\
     exists lines min_oil_pressure,
       analyze_health w0 (mkScript [] (mkTester init [data]))
       = (Ok tt, w0, mkScript ([] ++ lines) (mkTester init [data])) /\
       List.length lines = 12%nat /\ 60 <= lub_score min_oil_pressure).
Proof.
  split.
  - split; [reflexivity|].
    exact (proj1 (analyze_health_on_history w0 (mkScript [] init_tester)) eq_refl).
  - destruct (sample_run w0 (mkScript [] init_tester) Inv_init)
      as (data & Hrun & Hok & _).
    exists data.
    assert (Hne : history (tester (mkScript [] (mkTester init [data]))) <> [])
      by discriminate.
    assert (Hall : Forall snapshot_ok
                     (history (tester (mkScript [] (mkTester init [data])))))
      by (constructor; [exact Hok|constructor]).
    split; [exact Hrun|]. split; [exact Hne|]. split; [exact Hall|].
    destruct (proj2 (analyze_health_on_history w0
                       (mkScript [] (mkTester init [data]))) Hne Hall)
      as (lines & avg & mn & Hr & Hl & _ & _ & _ & _ & H60).
    exists lines, mn. split; [exact Hr|]. split; [exact Hl|exact H60].
Defined.

(** ** Labels of a snapshot *)

Lemma Inv_channel_entry c k s :
  Inv c -> dict_get k (sensors c) = Some s -> In (k, static s) (config init).
Proof.
  intros I H. apply dict_get_In in H.
  apply (in_map (fun kv => (fst kv, static (snd kv)))) in H.
  fold (config c) in H. now rewrite (inv_config c I) in H.
Qed.

(** X17. On a model reached from the freshly constructed one, every reading
    of the snapshot returned by [read_all_sensors()] carries as its command
    the key it is filed under, and as its unit the entry of the unit table
    for that key: none of the ten channels falls back to the empty unit. *)
Theorem snapshot_labels (cs : list call) (w w' : World) :
  exists rs,
    result_of (read_all_sensors w' (after cs w init)) = Ok rs /\
    forall k rd,
      In (k, rd) rs ->
      command rd = k /\ dict_get k units = Some (unit_label rd) /\
      unit_label rd <> EmptyString.
Proof.
  set (c := after cs w init).
  assert (I : Inv c) by apply Inv_after, Inv_init.
  unfold read_all_sensors, bind, gets.
  destruct (read_each_run (map fst (sensors c)) w' c (fun k => dict_get_key k _))
    as (rs & Hrun & _ & Hrd).
  exists rs. rewrite Hrun. split; [reflexivity|].
  intros k rd Hin. apply In_nth_error in Hin. destruct Hin as [i Hi].
  destruct (Hrd i k rd Hi) as (s & Hs & Hr).
  rewrite read_run in Hr. injection Hr as <-. cbn [command unit_label].
  pose proof (Inv_channel_entry c k s I Hs) as E.
  cbn in E. unfold static in E.
  repeat (destruct E as [E|E];
          [injection E as <- <- _ _ _;
           repeat split; try reflexivity; cbn; discriminate|]).
  contradiction.
Qed.

Lemma snapshot_labels_witness :
  exists rs rd,
    result_of (read_all_sensors w1 (after [SetGear (PyInt 2)] w0 init)) = Ok rs /\
    In ("OIL_PRESSURE", rd) rs /\
    command rd = "OIL_PRESSURE" /\ unit_label rd = "psi".
Proof.
  destruct (snapshot_labels [SetGear (PyInt 2)] w0 w1) as (rs & Hrs & Hl).
  assert (Hk : exists rd, In ("OIL_PRESSURE", rd) rs).
  { revert Hrs. vm_compute. intros Hrs. injection Hrs as <-.
    eexists. do 9 right. left. reflexivity. }
  destruct Hk as [rd Hin]. exists rs, rd.
  destruct (Hl _ _ Hin) as (Hc & Hu & _).
  split; [exact Hrs|]. split; [exact Hin|]. split; [exact Hc|].
  cbn in Hu. now injection Hu as <-.
Defined.

(** ** What [read()] returns: clamped, then rounded *)

Lemma round_half_even_tie x :
  inject_Z (round_half_even x) - x == 1 # 2 \/
  x - inject_Z (round_half_even x) == 1 # 2 ->
  Z.even (round_half_even x) = true.
Proof.
  pose proof (Qfloor_le x) as Hlo. pose proof (Qlt_floor x) as Hhi.
  rewrite inject_Z_plus in Hhi. change (inject_Z 1) with 1 in Hhi.
  unfold round_half_even.
  destruct (Qcompare (x - inject_Z (Qfloor x)) (1 # 2)) eqn:E.
  - intros _. destruct (Z.even (Qfloor x)) eqn:Ev; [exact Ev|].
    now rewrite Z.add_1_r, Z.even_succ, <- Z.negb_even, Ev.
  - apply Qlt_alt in E. intros [H|H]; lra.
  - apply Qgt_alt in E. rewrite inject_Z_plus. change (inject_Z 1) with 1.
    intros [H|H]; lra.
Qed.

(** [round2] meets the specification of rounding to two decimals. *)
Lemma round2_spec x : rounds_to_2_decimals x (round2 x).
Proof.
  exists (round_half_even (x * 100)). split; [reflexivity|].
  split; [apply round2_error|].
  intros H. apply round_half_even_tie. unfold round2 in H.
  set (r := inject_Z (round_half_even (x * 100))) in *. undiv.
  destruct H as [H|H]; [left|right]; lra.
Qed.

Lemma round2_between_hundredths (a b : Z) x :
  inject_Z a / 100 <= x <= inject_Z b / 100 ->
  inject_Z a / 100 <= round2 x <= inject_Z b / 100.
Proof.
  intros [Ha Hb]. unfold round2.
  assert (H : (a <= round_half_even (x * 100) <= b)%Z).
  { apply round_half_even_between. undiv. split; lra. }
  destruct H as [H1 H2]. rewrite Zle_Qle in H1, H2.
  set (r := inject_Z (round_half_even (x * 100))) in *. undiv. split; lra.
Qed.

(** C5, as amended.  For every sensor and every state of the random source,
    [read()] returns a reading whose value is the stored value plus the
    noise, clamped to the sensor's bounds and then rounded to two decimals:
    a whole number of hundredths, at most half a hundredth from the clamped
    sum, ties to even.  The noise lies within [-noise_level, +noise_level]
    when the noise level is not negative and the draw of [random()] lies in
    [0, 1].  The value lies within [min_value, max_value] when the bounds are
    whole numbers of hundredths, and so for every channel of a model reached
    from the freshly constructed one; with other bounds it lies within half
    a hundredth of them. *)
Theorem reading_clamped_then_rounded (w : World) (s : SimulatedSensor) :
  let noise :=
    uniform_of (- noise_level s) (noise_level s) (random_tape w (random_pos w)) in
  let clamped := Qclip (value s + noise) (min_value s) (max_value s) in
  exists rd,
    result_of (SimulatedSensorMethods.read w s) = Ok rd /\
    (0 <= noise_level s -> 0 <= random_tape w (random_pos w) <= 1 ->
     - noise_level s <= noise <= noise_level s) /\
    rounds_to_2_decimals clamped (reading_value rd) /\
    (forall a b : Z,
       min_value s == inject_Z a / 100 -> max_value s == inject_Z b / 100 ->
       (a <= b)%Z ->
       min_value s <= reading_value rd <= max_value s) /\
    (forall cs w' k,
       dict_get k (sensors (after cs w' init)) = Some s ->
       min_value s <= reading_value rd <= max_value s) /\
    (min_value s <= max_value s ->
     min_value s - (1 # 200) <= reading_value rd <= max_value s + (1 # 200)).
Proof.
  intros noise clamped.
  assert (Hrun : result_of (SimulatedSensorMethods.read w s)
                 = Ok (mkReading (name s) (round2 clamped)
                         (match dict_get (name s) units with
                          | Some u => u | None => EmptyString end)
                         (clock_tape w (clock_pos w))))
    by (now rewrite read_run).
  eexists. split; [exact Hrun|]. cbn [reading_value].
  split; [|split; [|split; [|split]]].
  - intros Hn Hu. now apply uniform_of_between.
  - apply round2_spec.
  - intros a b Ha Hb Hab.
    assert (Hle : min_value s <= max_value s).
    { rewrite Ha, Hb. rewrite Zle_Qle in Hab. undiv. lra. }
    pose proof (Qclip_bounds (value s + noise) _ _ Hle) as [C1 C2].
    fold clamped in C1, C2.
    destruct (round2_between_hundredths a b clamped) as [R1 R2].
    { rewrite <- Ha, <- Hb. split; assumption. }
    rewrite Ha, Hb. split; assumption.
  - intros cs w' k Hk.
    exact (Inv_reading_between _ k s w _ (Inv_after cs w' init Inv_init) Hk Hrun).
  - intros Hle.
    pose proof (Qclip_bounds (value s + noise) _ _ Hle) as [C1 C2].
    fold clamped in C1, C2.
    pose proof (round2_error clamped) as [R1 R2]. split; lra.
Qed.

Lemma reading_clamped_then_rounded_witness :
  dict_get "RPM" (sensors (after [SetThrottle (PyInt 50)] w0 init))
  = Some (mkSensor "RPM" 1050.0 0 7000 50) /\
  dict_get "SPEED" (sensors (after [] w0 init)) = Some (mkSensor "SPEED" 0 0 200 2) /\
  (exists rd,
     result_of (SimulatedSensorMethods.read w2 (mkSensor "RPM" 1050.0 0 7000 50))
     = Ok rd /\
     reading_value rd == 1012.35 /\
     rounds_to_2_decimals (1050 - 37.6544) (reading_value rd) /\
     0 <= reading_value rd <= 7000) /\
  (exists rd,
     result_of (SimulatedSensorMethods.read (advance 1 w2) (mkSensor "SPEED" 0 0 200 2))
     = Ok rd /\
     reading_value rd == 0 /\
     rounds_to_2_decimals (Qclip (0 - 1.6) 0 200) (reading_value rd) /\
     0 <= reading_value rd <= 200).
Proof.
  assert (K1 : dict_get "RPM" (sensors (after [SetThrottle (PyInt 50)] w0 init))
               = Some (mkSensor "RPM" 1050.0 0 7000 50)) by reflexivity.
  assert (K2 : dict_get "SPEED" (sensors (after [] w0 init))
               = Some (mkSensor "SPEED" 0 0 200 2)) by reflexivity.
  split; [exact K1|]. split; [exact K2|]. split.
  - destruct (reading_clamped_then_rounded w2 (mkSensor "RPM" 1050.0 0 7000 50))
      as (rd & Hrd & _ & Hround & _ & Hmodel & _).
    exists rd.
    assert (Hv : reading_value rd == 1012.35).
    { revert Hrd. rewrite read_run. intros Hrd. injection Hrd as <-.
      vm_compute. reflexivity. }
    split; [exact Hrd|]. split; [exact Hv|]. split.
    + destruct Hround as (n & Hn & Hd & Ht). exists n.
      assert (E : Qclip
                    (value (mkSensor "RPM" 1050.0 0 7000 50) +
                     uniform_of (- noise_level (mkSensor "RPM" 1050.0 0 7000 50))
                       (noise_level (mkSensor "RPM" 1050.0 0 7000 50))
                       (random_tape w2 (random_pos w2)))
                    (min_value (mkSensor "RPM" 1050.0 0 7000 50))
                    (max_value (mkSensor "RPM" 1050.0 0 7000 50))
                  == 1050 - 37.6544) by (vm_compute; reflexivity).
      rewrite E in Hd, Ht. split; [exact Hn|split; [exact Hd|exact Ht]].
    + exact (Hmodel _ _ _ K1).
  - destruct (reading_clamped_then_rounded (advance 1 w2) (mkSensor "SPEED" 0 0 200 2))
      as (rd & Hrd & _ & Hround & _ & Hmodel & _).
    exists rd.
    assert (Hv : reading_value rd == 0).
    { revert Hrd. rewrite read_run. intros Hrd. injection Hrd as <-.
      vm_compute. reflexivity. }
    split; [exact Hrd|]. split; [exact Hv|]. split.
    + destruct Hround as (n & Hn & Hd & Ht). exists n.
      assert (E : Qclip
                    (value (mkSensor "SPEED" 0 0 200 2) +
                     uniform_of (- noise_level (mkSensor "SPEED" 0 0 200 2))
                       (noise_level (mkSensor "SPEED" 0 0 200 2))
                       (random_tape (advance 1 w2) (random_pos (advance 1 w2))))
                    (min_value (mkSensor "SPEED" 0 0 200 2))
                    (max_value (mkSensor "SPEED" 0 0 200 2))
                  == Qclip (0 - 1.6) 0 200) by (vm_compute; reflexivity).
      rewrite E in Hd, Ht. split; [exact Hn|split; [exact Hd|exact Ht]].
    + exact (Hmodel _ _ _ K2).
Defined.

(** C5 as stated fails for a sensor whose bounds are not whole numbers of
    hundredths: with bounds [0.125, 1], stored value 0.125 and no noise, the
    clamped value 0.125 is rounded, half to even, to 0.12, below the
    minimum. *)
Lemma reading_rounds_below_min_value :
  exists rd,
    result_of (SimulatedSensorMethods.read w0 (mkSensor "CUSTOM" 0.125 0.125 1 0))
    = Ok rd /\
    reading_value rd == 0.12 /\
    ~ (min_value (mkSensor "CUSTOM" 0.125 0.125 1 0) <= reading_value rd
       <= max_value (mkSensor "CUSTOM" 0.125 0.125 1 0)).
Proof.
  rewrite read_run. eexists. split; [reflexivity|].
  cbn [reading_value min_value max_value].
  assert (E : round2
                (Qclip
                   (value (mkSensor "CUSTOM" 0.125 0.125 1 0) +
                    uniform_of (- noise_level (mkSensor "CUSTOM" 0.125 0.125 1 0))
                      (noise_level (mkSensor "CUSTOM" 0.125 0.125 1 0))
                      (random_tape w0 (random_pos w0))) 0.125 1) == 0.12)
    by (vm_compute; reflexivity).
  split; [exact E|]. rewrite E. intros [H _]. lra.
Qed.
